(** * Fintech Flow: the ledger, card and KYC routes of [backend/server.py]

    A shallow embedding of the FastAPI service.  The MongoDB database is a
    record of collections, each collection the list of its documents in
    insertion order; a route is a function from the database to a response
    and the database it leaves behind.  Monetary fields are Python [float]s,
    that is IEEE 754 binary64 numbers, and are modelled by Rocq's primitive
    floats: [<] is [PrimFloat.ltb], unary minus is [PrimFloat.opp] and the
    [$inc] update operator is [PrimFloat.add].

    Values the routes draw from their environment (uuid4 identifiers, the
    clock, the bcrypt hash, the generated card number) are parameters of the
    routes.  Each route runs from its first database call to its last without
    interleaving: the model is sequential.

    The database keeps a [datetime] in milliseconds, the clock gives
    microseconds.  Where a route answers the very object it stores
    ([register], [create_card]) the stored copy is truncated explicitly; a
    clock value that a route only writes stands for the value as stored. *)

From Stdlib Require Import Floats ZArith QArith.
From stdpp Require Import base strings list gmap sorting pretty.

Local Open Scope Z_scope.

(** [datetime] values, as a count of microseconds. *)
Abbreviation datetime := Z (only parsing).

(** ** Documents (the pydantic models) *)

Module User.
Record t := mk {
  id : string;
  email : string;
  full_name : string;
  phone : option string;
  kyc_status : string;          (* pending, in_review, approved, rejected *)
  is_active : bool;
  created_at : datetime;
  google_id : option string
}.

(** The documents of [db.users]: [user.dict()] plus the ["password"] key. *)
Record doc := mk_doc { user : t; password : string }.

Definition set_kyc_status (s : string) (d : doc) : doc :=
  let u := user d in
  mk_doc (mk (id u) (email u) (full_name u) (phone u) s (is_active u)
             (created_at u) (google_id u))
         (password d).
End User.

Module KYCDocument.
Record t := mk {
  id : string;
  user_id : string;
  document_type : string;
  document_number : string;
  document_image : string;
  selfie_image : string;
  status : string;      (* pending, analyzing, in_review, approved, rejected *)
  submitted_at : datetime;
  reviewed_at : option datetime;
  reviewer_id : option string;
  reviewer_notes : option string
}.

(** [{"$set": {"status": .., "reviewed_at": .., "reviewer_id": ..,
    "reviewer_notes": ..}}] *)
Definition set_review (s : string) (at_ : datetime) (by_ notes : string)
    (d : t) : t :=
  mk (id d) (user_id d) (document_type d) (document_number d)
     (document_image d) (selfie_image d) s (submitted_at d)
     (Some at_) (Some by_) (Some notes).
End KYCDocument.

Module PIXAccount.
Record t := mk {
  id : string;
  user_id : string;
  pix_key : string;
  pix_key_type : string;
  account_type : string;
  balance : float;
  is_active : bool;
  created_at : datetime
}.

Definition set_balance (b : float) (a : t) : t :=
  mk (id a) (user_id a) (pix_key a) (pix_key_type a) (account_type a) b
     (is_active a) (created_at a).

(** [{"$inc": {"balance": x}}] *)
Definition inc_balance (x : float) (a : t) : t :=
  set_balance (PrimFloat.add (balance a) x) a.
End PIXAccount.

Module PIXTransaction.
Record t := mk {
  id : string;
  from_user_id : option string;
  to_user_id : option string;
  from_pix_key : option string;
  to_pix_key : string;
  amount : float;
  description : option string;
  transaction_type : string;
  status : string;                (* pending, completed, failed, cancelled *)
  qr_code : option string;
  created_at : datetime;
  completed_at : option datetime
}.
End PIXTransaction.

Module PIXTransfer.
Record t := mk {
  to_pix_key : string;
  amount : float;
  description : option string
}.
End PIXTransfer.

Module VirtualCard.
Record t := mk {
  id : string;
  user_id : string;
  card_number : string;
  card_holder_name : string;
  cvv : string;
  expiry_date : string;
  status : string;
  daily_limit : float;
  monthly_limit : float;
  daily_spent : float;
  monthly_spent : float;
  created_at : datetime;
  blocked_at : option datetime
}.
End VirtualCard.

Module CardTransaction.
Record t := mk {
  id : string;
  card_id : string;
  merchant_name : string;
  amount : float;
  currency : string;
  status : string;
  transaction_type : string;
  created_at : datetime
}.
End CardTransaction.

(** ** The database *)

Module DB.
Record t := mk {
  users : list User.doc;
  kyc_documents : list KYCDocument.t;
  pix_accounts : list PIXAccount.t;
  pix_transactions : list PIXTransaction.t;
  virtual_cards : list VirtualCard.t;
  card_transactions : list CardTransaction.t
}.

Definition empty : t := mk [] [] [] [] [] [].
End DB.

(** A collection handle: how to read a collection of the database and how
    to write it back. *)
Record collection (A : Type) := mkColl {
  coll_get : DB.t -> list A;
  coll_put : list A -> DB.t -> DB.t
}.
Arguments mkColl {A}.
Arguments coll_get {A}.
Arguments coll_put {A}.

Module db.
Definition users : collection User.doc :=
  mkColl DB.users (fun c d => DB.mk c (DB.kyc_documents d)
    (DB.pix_accounts d) (DB.pix_transactions d) (DB.virtual_cards d)
    (DB.card_transactions d)).
Definition kyc_documents : collection KYCDocument.t :=
  mkColl DB.kyc_documents (fun c d => DB.mk (DB.users d) c
    (DB.pix_accounts d) (DB.pix_transactions d) (DB.virtual_cards d)
    (DB.card_transactions d)).
Definition pix_accounts : collection PIXAccount.t :=
  mkColl DB.pix_accounts (fun c d => DB.mk (DB.users d)
    (DB.kyc_documents d) c (DB.pix_transactions d) (DB.virtual_cards d)
    (DB.card_transactions d)).
Definition pix_transactions : collection PIXTransaction.t :=
  mkColl DB.pix_transactions (fun c d => DB.mk (DB.users d)
    (DB.kyc_documents d) (DB.pix_accounts d) c (DB.virtual_cards d)
    (DB.card_transactions d)).
Definition virtual_cards : collection VirtualCard.t :=
  mkColl DB.virtual_cards (fun c d => DB.mk (DB.users d)
    (DB.kyc_documents d) (DB.pix_accounts d) (DB.pix_transactions d) c
    (DB.card_transactions d)).
Definition card_transactions : collection CardTransaction.t :=
  mkColl DB.card_transactions (fun c d => DB.mk (DB.users d)
    (DB.kyc_documents d) (DB.pix_accounts d) (DB.pix_transactions d)
    (DB.virtual_cards d) c).
End db.

(** ** Collection operations on the list of documents *)

(** [find_one(query)]: the first document, in natural order, that matches. *)
Fixpoint first_match {A} (q : A -> bool) (c : list A) : option A :=
  match c with
  | [] => None
  | d :: c' => if q d then Some d else first_match q c'
  end.

(** [update_one(query, update)]: the first matching document is updated,
    and only that one; without a match the collection is left as it is. *)
Fixpoint update_first {A} (q : A -> bool) (f : A -> A) (c : list A) : list A :=
  match c with
  | [] => []
  | d :: c' => if q d then f d :: c' else d :: update_first q f c'
  end.

(** ** Routes: a state and exception monad over the database *)

Record HTTPException := mkHTTPException { status_code : Z; detail : string }.

Inductive response (A : Type) :=
  | Ok (a : A)
  | Raise (e : HTTPException)
  | ValidationError.       (* an uncaught pydantic error: a 500 response *)
Arguments Ok {A}.
Arguments Raise {A}.
Arguments ValidationError {A}.

Definition route (A : Type) : Type := DB.t -> response A * DB.t.

Definition ret {A} (a : A) : route A := fun d => (Ok a, d).

Definition bind {A B} (m : route A) (k : A -> route B) : route B :=
  fun d =>
    match m d with
    | (Ok a, d') => k a d'
    | (Raise e, d') => (Raise e, d')
    | (ValidationError, d') => (ValidationError, d')
    end.

Definition raise {A} (code : Z) (msg : string) : route A :=
  fun d => (Raise (mkHTTPException code msg), d).

Declare Scope route_scope.
Delimit Scope route_scope with route.
Notation "x <- m ;; k" := (bind m (fun x => k))
  (at level 100, m at next level, right associativity) : route_scope.
Notation "m ;; k" := (bind m (fun _ => k))
  (at level 100, right associativity) : route_scope.

Record UpdateResult := mkUpdateResult { matched_count : Z }.

Definition find_one {A} (c : collection A) (q : A -> bool) : route (option A) :=
  fun d => (Ok (first_match q (coll_get c d)), d).

Definition insert_one {A} (c : collection A) (x : A) : route unit :=
  fun d => (Ok tt, coll_put c (coll_get c d ++ [x]) d).

Definition update_one {A} (c : collection A) (q : A -> bool) (f : A -> A)
    : route UpdateResult :=
  fun d =>
    (Ok (mkUpdateResult (if first_match q (coll_get c d) is Some _ then 1 else 0)),
     coll_put c (update_first q f (coll_get c d)) d).

(** ** POST /pix/transfer *)

Module TransferReply.
Record t := mk { message : string; transaction_id : string }.
End TransferReply.

(** [tx_id] is the uuid4 of the transaction, [completed] the clock read for
    [completed_at] and [created] the one read by the [created_at] default. *)
Definition pix_transfer (transfer_data : PIXTransfer.t) (current_user : User.t)
    (tx_id : string) (completed created : datetime) : route TransferReply.t :=
  (sender_account <-
     find_one db.pix_accounts
       (fun a => String.eqb (PIXAccount.user_id a) (User.id current_user)) ;;
   match sender_account with
   | None => raise 404 "PIX account not found"
   | Some sender_account =>
     if PrimFloat.ltb (PIXAccount.balance sender_account)
                      (PIXTransfer.amount transfer_data)
     then raise 400 "Insufficient balance"
     else
       recipient_account <-
         find_one db.pix_accounts
           (fun a => String.eqb (PIXAccount.pix_key a)
                                (PIXTransfer.to_pix_key transfer_data)) ;;
       match recipient_account with
       | None => raise 404 "Recipient not found"
       | Some recipient_account =>
         let transaction :=
           PIXTransaction.mk tx_id
             (Some (User.id current_user))
             (Some (PIXAccount.user_id recipient_account))
             (Some (PIXAccount.pix_key sender_account))
             (PIXTransfer.to_pix_key transfer_data)
             (PIXTransfer.amount transfer_data)
             (PIXTransfer.description transfer_data)
             "send" "completed" None created (Some completed) in
         insert_one db.pix_transactions transaction ;;
         update_one db.pix_accounts
           (fun a => String.eqb (PIXAccount.user_id a) (User.id current_user))
           (PIXAccount.inc_balance
              (PrimFloat.opp (PIXTransfer.amount transfer_data))) ;;
         update_one db.pix_accounts
           (fun a => String.eqb (PIXAccount.user_id a)
                                (PIXAccount.user_id recipient_account))
           (PIXAccount.inc_balance (PIXTransfer.amount transfer_data)) ;;
         ret (TransferReply.mk "Transfer completed successfully"
                (PIXTransaction.id transaction))
       end
   end)%route.

(** ** What the database keeps of a datetime *)

(** BSON holds a datetime as a count of milliseconds: the microseconds below
    a millisecond are dropped when a document is inserted. *)
Definition bson_datetime (t : datetime) : datetime := 1000 * (t / 1000).

(** [user.dict()] as the collection holds it. *)
Definition stored_user (u : User.t) : User.t :=
  User.mk (User.id u) (User.email u) (User.full_name u) (User.phone u)
    (User.kyc_status u) (User.is_active u)
    (bson_datetime (User.created_at u)) (User.google_id u).

(** [card.dict()] as the collection holds it; a new card has no
    [blocked_at]. *)
Definition stored_card (c : VirtualCard.t) : VirtualCard.t :=
  VirtualCard.mk (VirtualCard.id c) (VirtualCard.user_id c)
    (VirtualCard.card_number c) (VirtualCard.card_holder_name c)
    (VirtualCard.cvv c) (VirtualCard.expiry_date c) (VirtualCard.status c)
    (VirtualCard.daily_limit c) (VirtualCard.monthly_limit c)
    (VirtualCard.daily_spent c) (VirtualCard.monthly_spent c)
    (bson_datetime (VirtualCard.created_at c))
    (bson_datetime <$> VirtualCard.blocked_at c).

(** ** POST /auth/register *)

Module UserCreate.
Record t := mk {
  email : string;
  password : string;
  full_name : string;
  phone : option string
}.
End UserCreate.

Module Token.
Record t := mk { access_token : string; token_type : string; user : User.t }.
End Token.

(** [user_id] and [account_id] are the two uuid4 draws, [now_user] the
    clock read of the user's [created_at] default, [now_account] the
    account's [created_at] as stored, [hashed_password] what bcrypt returns
    and [token] the signed JWT.  The user that is answered keeps the clock
    read; the document that is inserted keeps its milliseconds. *)
Definition register (user_data : UserCreate.t)
    (user_id account_id : string) (now_user now_account : datetime)
    (hashed_password token : string) : route Token.t :=
  (existing_user <-
     find_one db.users
       (fun d => String.eqb (User.email (User.user d))
                            (UserCreate.email user_data)) ;;
   match existing_user with
   | Some _ => raise 400 "Email already registered"
   | None =>
     let user :=
       User.mk user_id (UserCreate.email user_data)
         (UserCreate.full_name user_data) (UserCreate.phone user_data)
         "pending" true now_user None in
     insert_one db.users (User.mk_doc (stored_user user) hashed_password) ;;
     let pix_account :=
       PIXAccount.mk account_id (User.id user) (UserCreate.email user_data)
         "email" "checking" 0%float true now_account in
     insert_one db.pix_accounts pix_account ;;
     ret (Token.mk token "bearer" user)
   end)%route.

(** ** GET /pix/transactions *)

(** A cursor is the query it will run; [find] builds it, [sort] orders it
    and [to_list] runs it against the database. *)
Definition cursor (A : Type) : Type := DB.t -> list A.

Definition find {A} (c : collection A) (q : A -> bool) : cursor A :=
  fun d => List.filter q (coll_get c d).

(** Direction [-1]: the documents with the largest key come first.  The
    order among documents with equal keys is the server's choice; nothing
    below depends on it. *)
Definition newer_first {A} (key : A -> datetime) (x y : A) : Prop :=
  key y <= key x.

#[global] Instance newer_first_dec {A} (key : A -> datetime) :
  RelDecision (newer_first key).
Proof. intros x y. unfold newer_first. apply _. Defined.

Definition sort_desc {A} (key : A -> datetime) (cur : cursor A) : cursor A :=
  fun d => merge_sort (newer_first key) (cur d).

Definition to_list {A} (cur : cursor A) (length : nat) : route (list A) :=
  fun d => (Ok (take length (cur d)), d).

Definition option_eqb (o : option string) (s : string) : bool :=
  match o with
  | Some s' => String.eqb s' s
  | None => false
  end.

(** The [$or] query of the route. *)
Definition involves (uid : string) (tx : PIXTransaction.t) : bool :=
  option_eqb (PIXTransaction.from_user_id tx) uid
  || option_eqb (PIXTransaction.to_user_id tx) uid.

Definition get_pix_transactions (current_user : User.t)
    : route (list PIXTransaction.t) :=
  (transactions <-
     to_list
       (sort_desc PIXTransaction.created_at
          (find db.pix_transactions (involves (User.id current_user))))
       100 ;;
   ret transactions)%route.

(** ** POST /cards/create *)

(** A JSON body field of a model with an [Optional] annotation: left out,
    sent as [null], or sent with a value. *)
Inductive field (A : Type) :=
  | Omitted
  | Null
  | Given (a : A).
Arguments Omitted {A}.
Arguments Null {A}.
Arguments Given {A}.

Module CardCreate.
Record t := mk {
  card_holder_name : string;
  daily_limit : option float;
  monthly_limit : option float
}.

(** The request body before validation. *)
Record body := mk_body {
  body_card_holder_name : string;
  body_daily_limit : field float;
  body_monthly_limit : field float
}.

(** [Optional[float] = default]: a field left out takes the default, an
    explicit [null] is kept as [None]. *)
Definition with_default (default : float) (f : field float) : option float :=
  match f with
  | Omitted => Some default
  | Null => None
  | Given x => Some x
  end.

Definition parse (b : body) : t :=
  mk (body_card_holder_name b)
     (with_default 5000%float (body_daily_limit b))
     (with_default 50000%float (body_monthly_limit b)).
End CardCreate.

(** [card_id], [card_number], [cvv], [expiry_date] and [now] are what the
    [VirtualCard] default factories produce.  [daily_limit] and
    [monthly_limit] of [VirtualCard] are plain [float] fields: building the
    card with [None] for one of them is a validation error.  The card that
    is answered keeps the clock read [now]; the document that is inserted
    keeps its milliseconds. *)
Definition create_card (card_data : CardCreate.t) (current_user : User.t)
    (card_id card_number cvv expiry_date : string) (now : datetime)
    : route VirtualCard.t :=
  if negb (String.eqb (User.kyc_status current_user) "approved")
  then raise 400 "KYC approval required for card creation"
  else
    match CardCreate.daily_limit card_data,
          CardCreate.monthly_limit card_data with
    | Some daily_limit, Some monthly_limit =>
      let card :=
        VirtualCard.mk card_id (User.id current_user) card_number
          (CardCreate.card_holder_name card_data) cvv expiry_date "active"
          daily_limit monthly_limit 0%float 0%float now None in
      (insert_one db.virtual_cards (stored_card card) ;;
       ret card)%route
    | _, _ => fun d => (ValidationError, d)
    end.

(** ** PUT /admin/kyc/{kyc_id}/review *)

(** [status not in ["approved", "rejected"]], where [status] is
    [action.get("status")] and may be [None]. *)
Definition is_decision (status : option string) : bool :=
  match status with
  | Some s => String.eqb s "approved" || String.eqb s "rejected"
  | None => false
  end.

Definition review_kyc (kyc_id : string) (action : gmap string string)
    (current_user : User.t) (now : datetime) : route string :=
  let status := action !! "status" in
  let notes := default "" (action !! "notes") in
  if negb (is_decision status)
  then raise 400 "Invalid status"
  else
    (* past the guard [status] is a string *)
    let status := default "" status in
    (result <-
       update_one db.kyc_documents
         (fun k => String.eqb (KYCDocument.id k) kyc_id)
         (KYCDocument.set_review status now (User.id current_user) notes) ;;
     if matched_count result =? 0
     then raise 404 "KYC document not found"
     else
       kyc_doc <-
         find_one db.kyc_documents
           (fun k => String.eqb (KYCDocument.id k) kyc_id) ;;
       match kyc_doc with
       | Some kyc_doc =>
         update_one db.users
           (fun u => String.eqb (User.id (User.user u))
                                (KYCDocument.user_id kyc_doc))
           (User.set_kyc_status status) ;;
         ret ("KYC " +:+ status +:+ " successfully")
       | None => ret ("KYC " +:+ status +:+ " successfully")
       end)%route.

(** ** GET /pix/account *)

Definition get_pix_account (current_user : User.t) : route PIXAccount.t :=
  (pix_account <-
     find_one db.pix_accounts
       (fun a => String.eqb (PIXAccount.user_id a) (User.id current_user)) ;;
   match pix_account with
   | None => raise 404 "PIX account not found"
   | Some pix_account => ret pix_account
   end)%route.

(** ** POST /pix/generate-qr *)

Module PIXQRCode.
Record t := mk { amount : float; description : option string }.
End PIXQRCode.

(** The dictionary [qr_payload]. *)
Module QRPayload.
Record t := mk {
  pix_key : string;
  amount : float;
  description : option string;
  merchant_name : string
}.
End QRPayload.

Module QRReply.
Record t := mk { qr_code : string; pix_key : string; amount : string }.
End QRReply.

Section generate_qr.
(** What the route takes from Python and from the [qrcode] and [PIL]
    packages: [json.dumps] on the payload, [generate_qr_code], which renders
    a text as a base64 PNG, and [str] on a float. *)
Variable json_dumps : QRPayload.t -> string.
Variable generate_qr_code : string -> string.
Variable str : float -> string.

Definition generate_pix_qr (qr_data : PIXQRCode.t) (current_user : User.t)
    : route QRReply.t :=
  (pix_account <-
     find_one db.pix_accounts
       (fun a => String.eqb (PIXAccount.user_id a) (User.id current_user)) ;;
   match pix_account with
   | None => raise 404 "PIX account not found"
   | Some pix_account =>
     let qr_payload :=
       QRPayload.mk (PIXAccount.pix_key pix_account)
         (PIXQRCode.amount qr_data) (PIXQRCode.description qr_data)
         (User.full_name current_user) in
     let qr_code_image := generate_qr_code (json_dumps qr_payload) in
     ret (QRReply.mk qr_code_image (PIXAccount.pix_key pix_account)
            (str (PIXQRCode.amount qr_data)))
   end)%route.
End generate_qr.

(** ** Authentication: POST /auth/login and the bearer dependency *)

Module UserLogin.
Record t := mk { email : string; password : string }.
End UserLogin.

(** What [jwt.decode] makes of a bearer token: a payload with or without
    the ["sub"] key, or one of the two errors the dependency catches. *)
Inductive jwt_decoded :=
  | Payload (sub : option string)
  | ExpiredSignatureError
  | InvalidTokenError.

Section authentication.
(** [pwd_context.verify] of passlib and [jwt.decode] of PyJWT. *)
Variable verify_password : string -> string -> bool.
Variable jwt_decode : string -> jwt_decoded.

(** [token] is the JWT that [create_access_token] signs. *)
Definition login (login_data : UserLogin.t) (token : string) : route Token.t :=
  (user_data <-
     find_one db.users
       (fun d => String.eqb (User.email (User.user d))
                            (UserLogin.email login_data)) ;;
   match user_data with
   | None => raise 401 "Invalid credentials"
   | Some user_data =>
     if negb (verify_password (UserLogin.password login_data)
                (User.password user_data))
     then raise 401 "Invalid credentials"
     else
       let user := User.user user_data in
       ret (Token.mk token "bearer" user)
   end)%route.

Definition get_current_user (credentials : string) : route User.t :=
  match jwt_decode credentials with
  | Payload None => raise 401 "Invalid token"
  | Payload (Some user_id) =>
    (user_data <-
       find_one db.users
         (fun d => String.eqb (User.id (User.user d)) user_id) ;;
     match user_data with
     | None => raise 401 "User not found"
     | Some user_data => ret (User.user user_data)
     end)%route
  | ExpiredSignatureError => raise 401 "Token expired"
  | InvalidTokenError => raise 401 "Invalid token"
  end.
End authentication.

(** ** POST /kyc/submit and GET /kyc/status *)

Module KYCSubmission.
Record t := mk {
  document_type : string;
  document_number : string;
  document_image : string;
  selfie_image : string
}.
End KYCSubmission.

Module KYCSubmitReply.
Record t := mk { message : string; status : string }.
End KYCSubmitReply.

(** [existing_kyc and existing_kyc["status"] != "rejected"] *)
Definition blocks_submission (existing_kyc : option KYCDocument.t) : bool :=
  match existing_kyc with
  | Some k => negb (String.eqb (KYCDocument.status k) "rejected")
  | None => false
  end.

(** [doc_id] is the uuid4 of the document and [now] its [submitted_at]. *)
Definition submit_kyc (kyc_data : KYCSubmission.t) (current_user : User.t)
    (doc_id : string) (now : datetime) : route KYCSubmitReply.t :=
  (existing_kyc <-
     find_one db.kyc_documents
       (fun k => String.eqb (KYCDocument.user_id k) (User.id current_user)) ;;
   if blocks_submission existing_kyc
   then raise 400 "KYC already submitted"
   else
     let kyc_doc :=
       KYCDocument.mk doc_id (User.id current_user)
         (KYCSubmission.document_type kyc_data)
         (KYCSubmission.document_number kyc_data)
         (KYCSubmission.document_image kyc_data)
         (KYCSubmission.selfie_image kyc_data)
         "analyzing" now None None None in
     insert_one db.kyc_documents kyc_doc ;;
     update_one db.users
       (fun u => String.eqb (User.id (User.user u)) (User.id current_user))
       (User.set_kyc_status "in_review") ;;
     ret (KYCSubmitReply.mk "KYC submitted successfully" "analyzing"))%route.

(** The two shapes of the answer of GET /kyc/status. *)
Inductive kyc_status_reply :=
  | NotSubmitted                       (* {"status": "not_submitted"} *)
  | Submitted (status : string) (submitted_at : datetime)
              (reviewer_notes : option string).

Definition get_kyc_status (current_user : User.t) : route kyc_status_reply :=
  (kyc_doc <-
     find_one db.kyc_documents
       (fun k => String.eqb (KYCDocument.user_id k) (User.id current_user)) ;;
   match kyc_doc with
   | None => ret NotSubmitted
   | Some kyc_doc =>
     ret (Submitted (KYCDocument.status kyc_doc)
            (KYCDocument.submitted_at kyc_doc)
            (KYCDocument.reviewer_notes kyc_doc))
   end)%route.

(** ** GET /admin/kyc/pending *)

Module PendingKYC.
Record t := mk {
  kyc_id : string;
  user_name : string;
  user_email : string;
  document_type : string;
  submitted_at : datetime;
  status : string
}.
End PendingKYC.

(** [{"status": {"$in": ["analyzing", "in_review"]}}] *)
Definition awaits_review (k : KYCDocument.t) : bool :=
  String.eqb (KYCDocument.status k) "analyzing"
  || String.eqb (KYCDocument.status k) "in_review".

(** The [for] loop of the route: one user lookup and one summary per
    document, in the order of the documents. *)
Fixpoint summarize (pending_kyc : list KYCDocument.t)
    : route (list PendingKYC.t) :=
  match pending_kyc with
  | [] => ret []
  | kyc :: rest =>
    (user_data <-
       find_one db.users
         (fun u => String.eqb (User.id (User.user u)) (KYCDocument.user_id kyc)) ;;
     let entry :=
       PendingKYC.mk (KYCDocument.id kyc)
         (match user_data with
          | Some u => User.full_name (User.user u)
          | None => "Unknown"
          end)
         (match user_data with
          | Some u => User.email (User.user u)
          | None => "Unknown"
          end)
         (KYCDocument.document_type kyc)
         (KYCDocument.submitted_at kyc)
         (KYCDocument.status kyc) in
     result <- summarize rest ;;
     ret (entry :: result))%route
  end.

Definition get_pending_kyc (current_user : User.t) : route (list PendingKYC.t) :=
  (pending_kyc <- to_list (find db.kyc_documents awaits_review) 100 ;;
   summarize pending_kyc)%route.

(** ** The card routes *)

(** [{"id": card_id, "user_id": current_user.id}] *)
Definition owned_card (card_id : string) (current_user : User.t)
    (c : VirtualCard.t) : bool :=
  String.eqb (VirtualCard.id c) card_id
  && String.eqb (VirtualCard.user_id c) (User.id current_user).

(** [{"$set": {"status": .., "blocked_at": ..}}] *)
Definition set_card_block (status : string) (blocked_at : option datetime)
    (c : VirtualCard.t) : VirtualCard.t :=
  VirtualCard.mk (VirtualCard.id c) (VirtualCard.user_id c)
    (VirtualCard.card_number c) (VirtualCard.card_holder_name c)
    (VirtualCard.cvv c) (VirtualCard.expiry_date c) status
    (VirtualCard.daily_limit c) (VirtualCard.monthly_limit c)
    (VirtualCard.daily_spent c) (VirtualCard.monthly_spent c)
    (VirtualCard.created_at c) blocked_at.

(** [{"$set": {"daily_limit": .., "monthly_limit": ..}}] *)
Definition set_card_limits (daily_limit monthly_limit : float)
    (c : VirtualCard.t) : VirtualCard.t :=
  VirtualCard.mk (VirtualCard.id c) (VirtualCard.user_id c)
    (VirtualCard.card_number c) (VirtualCard.card_holder_name c)
    (VirtualCard.cvv c) (VirtualCard.expiry_date c) (VirtualCard.status c)
    daily_limit monthly_limit
    (VirtualCard.daily_spent c) (VirtualCard.monthly_spent c)
    (VirtualCard.created_at c) (VirtualCard.blocked_at c).

Module CardLimits.
Record t := mk { daily_limit : float; monthly_limit : float }.
End CardLimits.

Definition get_cards (current_user : User.t) : route (list VirtualCard.t) :=
  (cards <-
     to_list
       (find db.virtual_cards
          (fun c => String.eqb (VirtualCard.user_id c) (User.id current_user)))
       10 ;;
   ret cards)%route.

Definition block_card (card_id : string) (current_user : User.t)
    (now : datetime) : route string :=
  (result <-
     update_one db.virtual_cards (owned_card card_id current_user)
       (set_card_block "blocked" (Some now)) ;;
   if matched_count result =? 0
   then raise 404 "Card not found"
   else ret "Card blocked successfully")%route.

Definition unblock_card (card_id : string) (current_user : User.t)
    : route string :=
  (result <-
     update_one db.virtual_cards (owned_card card_id current_user)
       (set_card_block "active" None) ;;
   if matched_count result =? 0
   then raise 404 "Card not found"
   else ret "Card unblocked successfully")%route.

Definition update_card_limits (card_id : string) (limits : CardLimits.t)
    (current_user : User.t) : route string :=
  (result <-
     update_one db.virtual_cards (owned_card card_id current_user)
       (set_card_limits (CardLimits.daily_limit limits)
                        (CardLimits.monthly_limit limits)) ;;
   if matched_count result =? 0
   then raise 404 "Card not found"
   else ret "Card limits updated successfully")%route.

Definition get_card_transactions (card_id : string) (current_user : User.t)
    : route (list CardTransaction.t) :=
  (card <- find_one db.virtual_cards (owned_card card_id current_user) ;;
   match card with
   | None => raise 404 "Card not found"
   | Some _ =>
     transactions <-
       to_list
         (sort_desc CardTransaction.created_at
            (find db.card_transactions
               (fun t => String.eqb (CardTransaction.card_id t) card_id)))
         100 ;;
     ret transactions
   end)%route.

(** ** The service as a state machine

    One constructor per route that writes, with the caller, the body and
    the values drawn from the environment; [serve] is the database the
    route leaves, whatever it answers. *)
Inductive request :=
  | Register (user_data : UserCreate.t) (user_id account_id : string)
             (now_user now_account : datetime) (hashed_password token : string)
  | SubmitKYC (kyc_data : KYCSubmission.t) (current_user : User.t)
              (doc_id : string) (now : datetime)
  | ReviewKYC (kyc_id : string) (action : gmap string string)
              (current_user : User.t) (now : datetime)
  | Transfer (transfer_data : PIXTransfer.t) (current_user : User.t)
             (tx_id : string) (completed created : datetime)
  | CreateCard (card_data : CardCreate.t) (current_user : User.t)
               (card_id card_number cvv expiry_date : string) (now : datetime)
  | BlockCard (card_id : string) (current_user : User.t) (now : datetime)
  | UnblockCard (card_id : string) (current_user : User.t)
  | UpdateCardLimits (card_id : string) (limits : CardLimits.t)
                     (current_user : User.t).

Definition serve (r : request) (d : DB.t) : DB.t :=
  match r with
  | Register user_data user_id account_id now_user now_account hashed token =>
    snd (register user_data user_id account_id now_user now_account hashed
           token d)
  | SubmitKYC kyc_data current_user doc_id now =>
    snd (submit_kyc kyc_data current_user doc_id now d)
  | ReviewKYC kyc_id action current_user now =>
    snd (review_kyc kyc_id action current_user now d)
  | Transfer transfer_data current_user tx_id completed created =>
    snd (pix_transfer transfer_data current_user tx_id completed created d)
  | CreateCard card_data current_user card_id card_number cvv expiry_date now =>
    snd (create_card card_data current_user card_id card_number cvv
           expiry_date now d)
  | BlockCard card_id current_user now =>
    snd (block_card card_id current_user now d)
  | UnblockCard card_id current_user =>
    snd (unblock_card card_id current_user d)
  | UpdateCardLimits card_id limits current_user =>
    snd (update_card_limits card_id limits current_user d)
  end.

(** The database after a sequence of requests, oldest first. *)
Definition replay (requests : list request) (d : DB.t) : DB.t :=
  fold_left (fun d r => serve r d) requests d.

(** ** Queries and effects named for the statements below *)

Definition by_user (uid : string) (a : PIXAccount.t) : bool :=
  String.eqb (PIXAccount.user_id a) uid.

Definition by_key (key : string) (a : PIXAccount.t) : bool :=
  String.eqb (PIXAccount.pix_key a) key.

(** The ledger entry a successful transfer writes. *)
Definition transfer_record (transfer_data : PIXTransfer.t) (current_user : User.t)
    (sender recipient : PIXAccount.t) (tx_id : string)
    (completed created : datetime) : PIXTransaction.t :=
  PIXTransaction.mk tx_id (Some (User.id current_user))
    (Some (PIXAccount.user_id recipient)) (Some (PIXAccount.pix_key sender))
    (PIXTransfer.to_pix_key transfer_data) (PIXTransfer.amount transfer_data)
    (PIXTransfer.description transfer_data) "send" "completed" None created
    (Some completed).

(** The account collection after the two [$inc] updates. *)
Definition settled (transfer_data : PIXTransfer.t) (current_user : User.t)
    (recipient : PIXAccount.t) (accounts : list PIXAccount.t)
    : list PIXAccount.t :=
  update_first (by_user (PIXAccount.user_id recipient))
    (PIXAccount.inc_balance (PIXTransfer.amount transfer_data))
    (update_first (by_user (User.id current_user))
       (PIXAccount.inc_balance (PrimFloat.opp (PIXTransfer.amount transfer_data)))
       accounts).

Definition kyc_of (uid : string) (k : KYCDocument.t) : bool :=
  String.eqb (KYCDocument.user_id k) uid.

Definition kyc_by_id (kyc_id : string) (k : KYCDocument.t) : bool :=
  String.eqb (KYCDocument.id k) kyc_id.

Definition user_by_id (uid : string) (u : User.doc) : bool :=
  String.eqb (User.id (User.user u)) uid.

(** The rational number a finite float stands for. *)
Definition exact_value (x : float) : option Q :=
  match Prim2SF x with
  | S754_zero _ => Some (Qmake 0 1)
  | S754_finite s m e =>
    Some (Qmult (Qmake (if s then Z.neg m else Z.pos m) 1)
                (Qpower (Qmake 2 1) e))
  | S754_infinity _ | S754_nan => None
  end.

(** Whether [z] is the sum of [x] and [y] as rational numbers, without
    rounding; [None] when one of them is infinite or NaN. *)
Definition exact_sum_is (z x y : float) : option bool :=
  match exact_value z, exact_value x, exact_value y with
  | Some c, Some a, Some b => Some (Qeq_bool c (Qplus a b))
  | _, _, _ => None
  end.

(** ** Two customers, for the scenarios *)

Definition alice : User.t :=
  User.mk "user-alice" "alice@example.com" "Alice Souza" None "pending" true
    1000 None.

Definition bob : User.t :=
  User.mk "user-bob" "bob@example.com" "Bob Lima" None "approved" true
    2000 None.

Definition alice_account (balance : float) : PIXAccount.t :=
  PIXAccount.mk "acct-alice" "user-alice" "alice@example.com" "email"
    "checking" balance true 1000.

Definition bob_account (balance : float) : PIXAccount.t :=
  PIXAccount.mk "acct-bob" "user-bob" "bob@example.com" "email"
    "checking" balance true 2000.

(** A database holding the two customers with the given balances. *)
Definition two_customers (balance_alice balance_bob : float) : DB.t :=
  DB.mk [User.mk_doc alice "$2b$12$alice"; User.mk_doc bob "$2b$12$bob"] []
    [alice_account balance_alice; bob_account balance_bob] [] [] [].

(** The same two customers signing up, and the state after both did:
    [register] opens each account with balance 0. *)
Definition alice_signup : UserCreate.t :=
  UserCreate.mk "alice@example.com" "correct horse" "Alice Souza" None.

Definition bob_signup : UserCreate.t :=
  UserCreate.mk "bob@example.com" "battery staple" "Bob Lima" None.

Definition after_signups : DB.t :=
  snd (register bob_signup "user-bob" "acct-bob" 2000 2000 "$2b$12$bob" "jwt-bob"
    (snd (register alice_signup "user-alice" "acct-alice" 1000 1000
            "$2b$12$alice" "jwt-alice" DB.empty))).

(** Alice's identity document, waiting for a reviewer. *)
Definition alice_document : KYCDocument.t :=
  KYCDocument.mk "kyc-1" "user-alice" "cpf" "12345678901" "aW1hZ2U="
    "c2VsZmll" "analyzing" 4000 None None None.

Definition awaiting_review : DB.t :=
  DB.mk (DB.users (two_customers 0 0)) [alice_document]
    (DB.pix_accounts (two_customers 0 0)) [] [] [].

(** Bob's card, as [create_card] issues it with the default limits. *)
Definition bob_card : VirtualCard.t :=
  VirtualCard.mk "card-1" "user-bob" "4a1b2c3d4e5f6a7b" "BOB LIMA" "123"
    "11/31" "active" 5000 50000 0 0 9000 None.

Definition with_card : DB.t :=
  DB.mk (DB.users (two_customers 0 0)) []
    (DB.pix_accounts (two_customers 0 0)) [] [bob_card] [].

(** A statement of charges loaded into [card_transactions] (no route of the
    service writes there): 120 purchases on Bob's card, one per second,
    oldest first, and between them a purchase on another card every tenth
    second. *)
Definition purchase (card_id : string) (second : nat) : CardTransaction.t :=
  CardTransaction.mk (card_id +:+ "-" +:+ pretty second) card_id "Padaria"
    0x1.4p+3 "BRL" "completed" "purchase" (1000000 * Z.of_nat second).

Definition statement_of_charges : list CardTransaction.t :=
  flat_map
    (fun second =>
       if (second mod 10 =? 0)%nat
       then [purchase "card-9" second; purchase "card-1" second]
       else [purchase "card-1" second])
    (seq 0 120).

Definition with_charges : DB.t :=
  DB.mk (DB.users (two_customers 0 0)) []
    (DB.pix_accounts (two_customers 0 0)) [] [bob_card] statement_of_charges.

(** ** Shapes of the data that the routes maintain *)

(** The accounts line up with the users: the n-th account belongs to the
    n-th user and its PIX key is that user's email. *)
Definition owners_match (d : DB.t) : Prop :=
  (fun a => (PIXAccount.user_id a, PIXAccount.pix_key a)) <$> DB.pix_accounts d
  = (fun u => (User.id (User.user u), User.email (User.user u))) <$> DB.users d.

Definition emails_unique (d : DB.t) : Prop :=
  NoDup ((fun u => User.email (User.user u)) <$> DB.users d).

Definition settled_entry (tx : PIXTransaction.t) : Prop :=
  PIXTransaction.status tx = "completed" /\
  PIXTransaction.transaction_type tx = "send" /\
  is_Some (PIXTransaction.from_user_id tx) /\
  is_Some (PIXTransaction.to_user_id tx) /\
  PIXTransaction.qr_code tx = None.

Definition uncharged_card (c : VirtualCard.t) : Prop :=
  (VirtualCard.status c = "active" \/ VirtualCard.status c = "blocked") /\
  VirtualCard.daily_spent c = 0%float /\
  VirtualCard.monthly_spent c = 0%float.

Definition document_status_in_range (k : KYCDocument.t) : Prop :=
  KYCDocument.status k = "analyzing" \/ KYCDocument.status k = "approved" \/
  KYCDocument.status k = "rejected".

Definition user_status_in_range (u : User.doc) : Prop :=
  User.kyc_status (User.user u) = "pending" \/
  User.kyc_status (User.user u) = "in_review" \/
  User.kyc_status (User.user u) = "approved" \/
  User.kyc_status (User.user u) = "rejected".

Record consistent (d : DB.t) : Prop := mkConsistent {
  consistent_owners : owners_match d;
  consistent_emails : emails_unique d;
  consistent_ledger : Forall settled_entry (DB.pix_transactions d);
  consistent_cards : Forall uncharged_card (DB.virtual_cards d);
  consistent_charges : DB.card_transactions d = [];
  consistent_documents : Forall document_status_in_range (DB.kyc_documents d);
  consistent_users : Forall user_status_in_range (DB.users d)
}.

(** * Properties *)

(** Unfolds the monad and the collection operations of a route. *)
Ltac run_route :=
  unfold bind, find_one, insert_one, update_one, raise, ret; simpl.

(** ** Collections *)

Section collections.
Context {A : Type}.
Implicit Types (q : A -> bool) (f : A -> A) (c : list A).

Lemma first_match_Some q c x : first_match q c = Some x -> q x = true /\ x ∈ c.
Proof.
  induction c as [|d c IH]; simpl; [done|].
  destruct (q d) eqn:Hd.
  - intros [= <-]. split; [done | left].
  - intros H. destruct (IH H). split; [done | by right].
Qed.

Lemma first_match_None q c x : first_match q c = None -> x ∈ c -> q x = false.
Proof.
  induction c as [|d c IH]; simpl; intros Hn Hin.
  - by apply elem_of_nil in Hin.
  - destruct (q d) eqn:Hd; [done|].
    apply elem_of_cons in Hin as [-> | Hin]; auto.
Qed.

(** Without a match [update_one] writes nothing. *)
Lemma update_first_no_match q f c : first_match q c = None -> update_first q f c = c.
Proof.
  induction c as [|d c IH]; simpl; [done|].
  destruct (q d); [done|]. intros H. by rewrite IH.
Qed.

(** The document that the query finds is the one that is rewritten, and
    the query finds its new version when the update keeps the key. *)
Lemma first_match_update_first q f c x :
  first_match q c = Some x -> q (f x) = true ->
  first_match q (update_first q f c) = Some (f x).
Proof.
  induction c as [|d c IH]; simpl; [done|].
  destruct (q d) eqn:Hd.
  - intros [= <-] Hf. simpl. by rewrite Hf.
  - intros H Hf. simpl. rewrite Hd. auto.
Qed.

(** A query [q'] whose answer is no match of [q] is not disturbed by an
    update through [q], as long as the update leaves what [q'] tests. *)
Lemma first_match_update_first_other q q' f c :
  (forall y, q' (f y) = q' y) ->
  (forall r, first_match q' c = Some r -> q r = false) ->
  first_match q' (update_first q f c) = first_match q' c.
Proof.
  intros Hf. induction c as [|d c IH]; simpl; [done|]. intros Hr.
  destruct (q d) eqn:Hd; simpl.
  - rewrite Hf. destruct (q' d) eqn:Hd'; [|done].
    specialize (Hr d eq_refl). congruence.
  - destruct (q' d) eqn:Hd'; [done|]. auto.
Qed.

Lemma update_first_length q f c : length (update_first q f c) = length c.
Proof.
  induction c as [|d c IH]; simpl; [done|].
  destruct (q d); simpl; by rewrite ?IH.
Qed.
End collections.

(** When a key is unique in a collection, every document is the answer to
    the query for its own key. *)
Lemma first_match_unique {A} (key : A -> string) (c : list A) (x : A) :
  NoDup (key <$> c) -> x ∈ c ->
  first_match (fun y => String.eqb (key y) (key x)) c = Some x.
Proof.
  induction c as [|d c IH]; simpl; intros Hnd Hin.
  - by apply elem_of_nil in Hin.
  - apply NoDup_cons in Hnd as [Hd Hnd].
    apply elem_of_cons in Hin as [-> | Hin].
    + by rewrite String.eqb_refl.
    + destruct (String.eqb (key d) (key x)) eqn:E; [|auto].
      apply String.eqb_eq in E. exfalso. apply Hd. rewrite E.
      by apply list_elem_of_fmap_2.
Qed.

(** ** The outcomes of a transfer *)

(** The four ways through [pix_transfer], in the order the route takes
    them. *)
Lemma pix_transfer_cases transfer_data current_user tx_id completed created d :
  pix_transfer transfer_data current_user tx_id completed created d =
  match first_match (by_user (User.id current_user)) (DB.pix_accounts d) with
  | None => (Raise (mkHTTPException 404 "PIX account not found"), d)
  | Some sender =>
    if PrimFloat.ltb (PIXAccount.balance sender) (PIXTransfer.amount transfer_data)
    then (Raise (mkHTTPException 400 "Insufficient balance"), d)
    else
      match first_match (by_key (PIXTransfer.to_pix_key transfer_data))
                        (DB.pix_accounts d) with
      | None => (Raise (mkHTTPException 404 "Recipient not found"), d)
      | Some recipient =>
        (Ok (TransferReply.mk "Transfer completed successfully" tx_id),
         DB.mk (DB.users d) (DB.kyc_documents d)
           (settled transfer_data current_user recipient (DB.pix_accounts d))
           (DB.pix_transactions d ++
              [transfer_record transfer_data current_user sender recipient
                 tx_id completed created])
           (DB.virtual_cards d) (DB.card_transactions d))
      end
  end.
Proof.
  unfold pix_transfer. run_route.
  fold (by_user (User.id current_user)).
  fold (by_key (PIXTransfer.to_pix_key transfer_data)).
  destruct (first_match (by_user _) _) as [sender|]; [|done].
  destruct (PrimFloat.ltb _ _); [done|].
  destruct (first_match (by_key _) _) as [recipient|]; done.
Qed.

(** C10: the balance check comes before the recipient lookup. *)
Theorem insufficient_balance_before_recipient_lookup
    transfer_data current_user tx_id completed created d sender :
  first_match (by_user (User.id current_user)) (DB.pix_accounts d) = Some sender ->
  PrimFloat.ltb (PIXAccount.balance sender) (PIXTransfer.amount transfer_data) = true ->
  first_match (by_key (PIXTransfer.to_pix_key transfer_data)) (DB.pix_accounts d) = None ->
  pix_transfer transfer_data current_user tx_id completed created d =
  (Raise (mkHTTPException 400 "Insufficient balance"), d).
Proof.
  intros Hs Hlt _. rewrite pix_transfer_cases, Hs, Hlt. done.
Qed.

(** Alice holds 30.0 and asks to send 100.0 to a key nobody owns. *)
Lemma insufficient_balance_before_recipient_lookup_witness :
  pix_transfer (PIXTransfer.mk "nobody@example.com" 0x1.9p+6 None) alice
    "tx-1" 5000 5001 (two_customers 0x1.ep+4 0) =
  (Raise (mkHTTPException 400 "Insufficient balance"),
   two_customers 0x1.ep+4 0).
Proof.
  apply insufficient_balance_before_recipient_lookup
    with (sender := alice_account 0x1.ep+4); reflexivity.
Defined.

(** C4: a transfer that fails writes nothing.  Whatever the reason for the
    failure (the sender has no account, the balance is below the amount, the
    key matches no account), the database after the call is the database
    before it: no ledger entry is inserted and no balance moves.  A request
    for more than the sender's balance is answered with HTTP 400,
    "Insufficient balance". *)
Theorem failed_transfer_writes_nothing
    transfer_data current_user tx_id completed created d :
  let amount := PIXTransfer.amount transfer_data in
  let sender := first_match (by_user (User.id current_user)) (DB.pix_accounts d) in
  let recipient :=
    first_match (by_key (PIXTransfer.to_pix_key transfer_data)) (DB.pix_accounts d) in
  let outcome := pix_transfer transfer_data current_user tx_id completed created d in
  (sender = None ->
     outcome = (Raise (mkHTTPException 404 "PIX account not found"), d)) /\
  (forall s, sender = Some s -> PrimFloat.ltb (PIXAccount.balance s) amount = true ->
     outcome = (Raise (mkHTTPException 400 "Insufficient balance"), d)) /\
  (forall s, sender = Some s -> PrimFloat.ltb (PIXAccount.balance s) amount = false ->
     recipient = None ->
     outcome = (Raise (mkHTTPException 404 "Recipient not found"), d)) /\
  (forall failure d',
     outcome = (failure, d') -> (forall reply, failure <> Ok reply) ->
     d' = d /\ DB.pix_transactions d' = DB.pix_transactions d
           /\ DB.pix_accounts d' = DB.pix_accounts d).
Proof.
  intros amount sender recipient outcome. subst outcome.
  rewrite pix_transfer_cases. fold sender recipient amount.
  split; [by intros ->|].
  split; [by intros s -> ->|].
  split; [by intros s -> -> ->|].
  intros failure d' Hout Hno. assert (d' = d) as ->; [|done].
  destruct sender as [s|]; [|congruence].
  destruct (PrimFloat.ltb _ _); [congruence|].
  destruct recipient as [r|]; [|congruence].
  injection Hout as <- _. by destruct (Hno _ eq_refl).
Qed.

(** The three failures on a database where Alice holds 30.0: a caller
    without an account, a request for 100.0, a key nobody owns. *)
Lemma failed_transfer_writes_nothing_witness :
  let poor := two_customers 0x1.ep+4 0 in
  let stranger := User.mk "user-carol" "carol@example.com" "Carol" None
                    "pending" true 3000 None in
  pix_transfer (PIXTransfer.mk "bob@example.com" 0x1.9p+6 None) stranger
    "tx-1" 5000 5001 poor
  = (Raise (mkHTTPException 404 "PIX account not found"), poor) /\
  pix_transfer (PIXTransfer.mk "bob@example.com" 0x1.9p+6 None) alice
    "tx-1" 5000 5001 poor
  = (Raise (mkHTTPException 400 "Insufficient balance"), poor) /\
  pix_transfer (PIXTransfer.mk "nobody@example.com" 0x1.4p+3 None) alice
    "tx-1" 5000 5001 poor
  = (Raise (mkHTTPException 404 "Recipient not found"), poor) /\
  DB.pix_transactions poor = [].
Proof.
  intros poor stranger.
  pose proof (failed_transfer_writes_nothing
    (PIXTransfer.mk "bob@example.com" 0x1.9p+6 None) stranger
    "tx-1" 5000 5001 poor) as (Hnone & _).
  pose proof (failed_transfer_writes_nothing
    (PIXTransfer.mk "bob@example.com" 0x1.9p+6 None) alice
    "tx-1" 5000 5001 poor) as (_ & Hlow & _ & Hsame).
  pose proof (failed_transfer_writes_nothing
    (PIXTransfer.mk "nobody@example.com" 0x1.4p+3 None) alice
    "tx-1" 5000 5001 poor) as (_ & _ & Hkey & _).
  split; [apply Hnone; reflexivity|].
  split; [apply (Hlow (alice_account 0x1.ep+4)); reflexivity|].
  split; [apply (Hkey (alice_account 0x1.ep+4)); reflexivity|].
  destruct (Hsame (Raise (mkHTTPException 400 "Insufficient balance")) poor)
    as (_ & Htx & _); [reflexivity | discriminate | exact Htx].
Defined.

(** ** Comparisons of binary64 numbers *)


(** An amount that is zero or negative never exceeds a balance that is zero
    or positive. *)
Lemma nonpositive_not_above_nonnegative (a b : float) :
  PrimFloat.leb a 0 = true -> PrimFloat.leb 0 b = true ->
  PrimFloat.ltb b a = false.
Proof.
  rewrite !leb_spec, ltb_spec.
  change (Prim2SF 0) with (S754_zero false).
  unfold SFleb, SFltb, SFcompare.
  by destruct (Prim2SF a) as [[]|[]| |[] ma ea], (Prim2SF b) as [[]|[]| |[] mb eb].
Qed.

(** ** Amounts that are zero or negative *)

(** C3 fails on the code.  The route has no test on the sign of the
    amount.  Alice holds 0.0 and asks to send -50.0 to Bob: the balance
    test [0.0 < -50.0] is false, the transfer is carried out, and the
    answer is the success message, not HTTP 400.  It is the request that
    overdraws Bob in C2. *)
Lemma negative_amount_is_accepted :
  PrimFloat.leb (-0x1.9p+5) 0 = true /\
  fst (pix_transfer (PIXTransfer.mk "bob@example.com" (-0x1.9p+5) None) alice
         "tx-1" 5000 5001 (two_customers 0 0))
  = Ok (TransferReply.mk "Transfer completed successfully" "tx-1").
Proof. split; reflexivity. Qed.

(** The extent of the defect: the sign of the amount plays no part in the
    route.  When the sender's account exists with a balance >= 0 and the key
    matches an account, a transfer with an amount <= 0 goes through; and
    the only HTTP 400 the route can answer is "Insufficient balance", for a
    sender whose balance is below the amount. *)
Theorem nonpositive_amount_is_not_refused
    transfer_data current_user tx_id completed created d :
  let amount := PIXTransfer.amount transfer_data in
  let sender := first_match (by_user (User.id current_user)) (DB.pix_accounts d) in
  let recipient :=
    first_match (by_key (PIXTransfer.to_pix_key transfer_data)) (DB.pix_accounts d) in
  let outcome := pix_transfer transfer_data current_user tx_id completed created d in
  PrimFloat.leb amount 0 = true ->
  (forall s r, sender = Some s -> recipient = Some r ->
     PrimFloat.leb 0 (PIXAccount.balance s) = true ->
     fst outcome = Ok (TransferReply.mk "Transfer completed successfully" tx_id)) /\
  (forall e, fst outcome = Raise e -> status_code e = 400 ->
     detail e = "Insufficient balance" /\
     exists s, sender = Some s /\
               PrimFloat.ltb (PIXAccount.balance s) amount = true).
Proof.
  intros amount sender recipient outcome Hneg. subst outcome.
  rewrite pix_transfer_cases. fold sender recipient amount. split.
  - intros s r -> -> Hbal.
    by rewrite (nonpositive_not_above_nonnegative _ _ Hneg Hbal).
  - intros e. destruct sender as [s|]; simpl; [|by intros [= <-]].
    destruct (PrimFloat.ltb _ _) eqn:Hlt; simpl.
    + intros [= <-] _. eauto.
    + destruct recipient; simpl; [done | by intros [= <-]].
Qed.

(** A transfer of 0.0 from Alice, who holds 30.0, to Bob. *)
Lemma nonpositive_amount_is_not_refused_witness :
  fst (pix_transfer (PIXTransfer.mk "bob@example.com" 0 None) alice
         "tx-2" 5000 5001 (two_customers 0x1.ep+4 0))
  = Ok (TransferReply.mk "Transfer completed successfully" "tx-2").
Proof.
  pose proof (nonpositive_amount_is_not_refused
    (PIXTransfer.mk "bob@example.com" 0 None) alice "tx-2" 5000 5001
    (two_customers 0x1.ep+4 0)) as H.
  destruct H as [Hok _]; [reflexivity|].
  apply (Hok (alice_account 0x1.ep+4) (bob_account 0)); reflexivity.
Defined.

(** ** Successful transfers *)

Lemma update_first_fmap {A B} (g : A -> B) (q : A -> bool) (f : A -> A) c :
  (forall y, g (f y) = g y) -> g <$> update_first q f c = g <$> c.
Proof.
  intros Hg. induction c as [|x c IH]; simpl; [done|].
  destruct (q x); rewrite !fmap_cons; [by rewrite Hg | by rewrite IH].
Qed.

(** Two documents of a collection with a unique key and the same key are
    the same document. *)
Lemma unique_key_inj {A} (key : A -> string) (c : list A) (x y : A) :
  NoDup (key <$> c) -> x ∈ c -> y ∈ c -> key x = key y -> x = y.
Proof.
  intros Hnd Hx Hy Hk.
  pose proof (first_match_unique key c x Hnd Hx) as H1.
  pose proof (first_match_unique key c y Hnd Hy) as H2.
  rewrite Hk in H1. congruence.
Qed.

(** An update through [q] reaches the answer [r] of another query [q'] when
    [r] is the only document [q] accepts. *)
Lemma first_match_update_first_only {A} (q q' : A -> bool) (f : A -> A) c r :
  q r = true ->
  (forall y, y ∈ c -> q y = true -> y = r) ->
  (forall y, q' (f y) = q' y) ->
  first_match q' c = Some r ->
  first_match q' (update_first q f c) = Some (f r).
Proof.
  intros Hr Honly Hf. induction c as [|x c IH]; simpl; [done|].
  destruct (q x) eqn:Hx; simpl.
  - assert (x = r) as -> by (apply Honly; [left | done]).
    rewrite Hf. destruct (q' r) eqn:E; [done|]. intros H.
    apply first_match_Some in H as [Hq' _]. congruence.
  - destruct (q' x) eqn:Hx'.
    + intros [= ->]. congruence.
    + apply IH. intros y Hy. apply Honly. by right.
Qed.

Lemma by_user_inc_balance uid x a :
  by_user uid (PIXAccount.inc_balance x a) = by_user uid a.
Proof. done. Qed.

Lemma by_key_inc_balance key x a :
  by_key key (PIXAccount.inc_balance x a) = by_key key a.
Proof. done. Qed.

Lemma by_user_true uid a : by_user uid a = true <-> PIXAccount.user_id a = uid.
Proof. apply String.eqb_eq. Qed.

Lemma by_user_false uid a : by_user uid a = false <-> PIXAccount.user_id a <> uid.
Proof. apply String.eqb_neq. Qed.

(** The equations of C1 do not hold in binary64.  Alice holds 120.89 and
    sends 40.23 to Bob, who holds 0.03.  The transfer succeeds and leaves
    Alice with 80.66 and Bob with 40.26, the nearest doubles.  None of
    [senderAfter + amount == senderBefore],
    [recipientAfter - amount == recipientBefore] and
    [senderAfter + recipientAfter == senderBefore + recipientBefore] holds
    for these floats, and as rational numbers neither balance has moved by
    the amount. *)
Lemma transfer_is_rounded :
  let amount := 0x1.41d70a3d70a3dp+5%float in
  let sender_before := 0x1.e38f5c28f5c29p+6%float in
  let recipient_before := 0x1.eb851eb851eb8p-6%float in
  let sender_after := 0x1.42a3d70a3d70ap+6%float in
  let recipient_after := 0x1.42147ae147ae1p+5%float in
  let outcome :=
    pix_transfer (PIXTransfer.mk "bob@example.com" amount None) alice
      "tx-1" 5000 5001 (two_customers sender_before recipient_before) in
  alice_account sender_before <> bob_account recipient_before /\
  fst outcome = Ok (TransferReply.mk "Transfer completed successfully" "tx-1") /\
  DB.pix_accounts (snd outcome) =
    [alice_account sender_after; bob_account recipient_after] /\
  PrimFloat.eqb (sender_after + amount) sender_before = false /\
  PrimFloat.eqb (recipient_after - amount) recipient_before = false /\
  PrimFloat.eqb (sender_after + recipient_after)
                (sender_before + recipient_before) = false /\
  exact_sum_is sender_before sender_after amount = Some false /\
  exact_sum_is recipient_after recipient_before amount = Some false.
Proof.
  split; [discriminate|]. repeat split; vm_compute; reflexivity.
Qed.

(** C1, as the code has it: after a successful transfer between two
    distinct accounts the sender's balance is the binary64 sum of the old
    balance and the negated amount, and the recipient's balance is the
    binary64 sum of the old balance and the amount, each rounded to the
    nearest double.  The sender is found by user id, the recipient by key
    and by user id. *)
Theorem transfer_moves_the_rounded_amount
    transfer_data current_user tx_id completed created d d' reply
    sender recipient :
  let amount := PIXTransfer.amount transfer_data in
  NoDup (PIXAccount.user_id <$> DB.pix_accounts d) ->
  first_match (by_user (User.id current_user)) (DB.pix_accounts d) = Some sender ->
  first_match (by_key (PIXTransfer.to_pix_key transfer_data)) (DB.pix_accounts d)
    = Some recipient ->
  recipient <> sender ->
  pix_transfer transfer_data current_user tx_id completed created d
    = (Ok reply, d') ->
  first_match (by_user (User.id current_user)) (DB.pix_accounts d')
    = Some (PIXAccount.set_balance
              (PrimFloat.add (PIXAccount.balance sender) (PrimFloat.opp amount))
              sender) /\
  first_match (by_key (PIXTransfer.to_pix_key transfer_data)) (DB.pix_accounts d')
    = Some (PIXAccount.set_balance
              (PrimFloat.add (PIXAccount.balance recipient) amount) recipient) /\
  first_match (by_user (PIXAccount.user_id recipient)) (DB.pix_accounts d')
    = Some (PIXAccount.set_balance
              (PrimFloat.add (PIXAccount.balance recipient) amount) recipient).
Proof.
  intros amount Hnd Hs Hr Hne Hrun.
  rewrite pix_transfer_cases, Hs in Hrun.
  destruct (PrimFloat.ltb _ _); [done|]. rewrite Hr in Hrun.
  injection Hrun as _ <-. simpl. unfold settled. fold amount.
  set (out := PIXAccount.inc_balance (PrimFloat.opp amount)).
  set (inc := PIXAccount.inc_balance amount).
  set (c := DB.pix_accounts d) in *.
  set (c1 := update_first (by_user (User.id current_user)) out c).
  destruct (first_match_Some _ _ _ Hs) as [Hsu Hsin].
  destruct (first_match_Some _ _ _ Hr) as [Hrk Hrin].
  apply by_user_true in Hsu.
  assert (PIXAccount.user_id recipient <> User.id current_user) as Hru.
  { intros E. apply Hne.
    apply (unique_key_inj PIXAccount.user_id c); congruence. }
  assert (NoDup (PIXAccount.user_id <$> c1)) as Hnd1.
  { unfold c1. by rewrite update_first_fmap. }
  assert (first_match (by_user (User.id current_user)) c1 = Some (out sender))
    as Hs1.
  { apply first_match_update_first; [done|]. by apply by_user_true. }
  assert (first_match (by_key (PIXTransfer.to_pix_key transfer_data)) c1
          = Some recipient) as Hr1.
  { unfold c1. rewrite first_match_update_first_other; [done|done|].
    intros r Hr'. rewrite Hr in Hr'. injection Hr' as <-.
    by apply by_user_false. }
  destruct (first_match_Some _ _ _ Hr1) as [_ Hrin1].
  split; [|split].
  - rewrite first_match_update_first_other; [exact Hs1|done|].
    intros r Hr'. rewrite Hs1 in Hr'. injection Hr' as <-.
    apply by_user_false. simpl. congruence.
  - apply (first_match_update_first_only _ _ inc); [| |done|done].
    + by apply by_user_true.
    + intros y Hy Hyu. apply by_user_true in Hyu.
      by apply (unique_key_inj PIXAccount.user_id c1).
  - apply (first_match_update_first _ inc).
    + by apply (first_match_unique PIXAccount.user_id c1 recipient).
    + by apply by_user_true.
Qed.

(** The scenario of the spec: Alice holds 100.0 and sends 30.0 to Bob, who
    holds nothing; she is left with 70.0 and he with 30.0. *)
Lemma transfer_moves_the_rounded_amount_witness :
  let request := PIXTransfer.mk "bob@example.com" 0x1.ep+4 None in
  let after :=
    DB.mk (DB.users (two_customers 0 0)) []
      [alice_account 0x1.18p+6; bob_account 0x1.ep+4]
      [transfer_record request alice (alice_account 0x1.9p+6) (bob_account 0)
         "tx-1" 5000 5001]
      [] [] in
  pix_transfer request alice "tx-1" 5000 5001 (two_customers 0x1.9p+6 0)
    = (Ok (TransferReply.mk "Transfer completed successfully" "tx-1"), after) /\
  first_match (by_user "user-alice") (DB.pix_accounts after)
    = Some (alice_account 0x1.18p+6) /\
  first_match (by_key "bob@example.com") (DB.pix_accounts after)
    = Some (bob_account 0x1.ep+4).
Proof.
  intros request after.
  assert (pix_transfer request alice "tx-1" 5000 5001 (two_customers 0x1.9p+6 0)
    = (Ok (TransferReply.mk "Transfer completed successfully" "tx-1"), after))
    as Hrun by reflexivity.
  split; [exact Hrun|].
  assert (NoDup (PIXAccount.user_id <$> DB.pix_accounts (two_customers 0x1.9p+6 0)))
    as Hnd by compute_done.
  assert (bob_account 0 <> alice_account 0x1.9p+6) as Hne by discriminate.
  destruct (transfer_moves_the_rounded_amount request alice "tx-1" 5000 5001
    (two_customers 0x1.9p+6 0) after _ (alice_account 0x1.9p+6) (bob_account 0)
    Hnd eq_refl eq_refl Hne Hrun) as (Ha & Hb & _).
  split; [exact Ha | exact Hb].
Defined.

(** *** One account per user

    The hypothesis of uniqueness above is an invariant of the service:
    [register] opens an account for a user id that has none, and a transfer
    changes balances only. *)

Lemma pix_transfer_keeps_owners
    transfer_data current_user tx_id completed created d :
  PIXAccount.user_id <$>
    DB.pix_accounts
      (snd (pix_transfer transfer_data current_user tx_id completed created d))
  = PIXAccount.user_id <$> DB.pix_accounts d.
Proof.
  rewrite pix_transfer_cases.
  destruct (first_match (by_user _) _); [|done].
  destruct (PrimFloat.ltb _ _); [done|].
  destruct (first_match (by_key _) _); [|done].
  simpl. unfold settled. by rewrite !update_first_fmap.
Qed.

Lemma register_keeps_owners_unique
    user_data user_id account_id now_user now_account hashed_password token d :
  NoDup (PIXAccount.user_id <$> DB.pix_accounts d) ->
  user_id ∉ PIXAccount.user_id <$> DB.pix_accounts d ->
  NoDup (PIXAccount.user_id <$>
           DB.pix_accounts
             (snd (register user_data user_id account_id now_user now_account
                     hashed_password token d))).
Proof.
  intros Hnd Hfresh. unfold register. run_route.
  destruct (first_match _ _); simpl; [done|].
  rewrite fmap_app. apply NoDup_app. split; [done|]. split.
  - intros x Hx Hx'. apply list_elem_of_singleton in Hx'. simpl in Hx'. by subst.
  - apply NoDup_singleton.
Qed.

(** ** A transfer to one's own key *)




(** ** Balances below zero *)

(** C2 fails on the code.  Alice and Bob register, each with balance 0.
    Alice then sends -50.0 to Bob's key: [0.0 < -50.0] is false, so the
    balance guard lets the request through, Alice is credited 50.0 and Bob
    is left with -50.0.  (Both clock reads are whole milliseconds.) *)
Theorem negative_amount_overdraws_recipient :
  let request := PIXTransfer.mk "bob@example.com" (-0x1.9p+5) None in
  let outcome := pix_transfer request alice "tx-1" 5000 5001 after_signups in
  fst (register alice_signup "user-alice" "acct-alice" 1000 1000
         "$2b$12$alice" "jwt-alice" DB.empty)
    = Ok (Token.mk "jwt-alice" "bearer" alice) /\
  DB.pix_accounts after_signups = [alice_account 0; bob_account 0] /\
  fst outcome = Ok (TransferReply.mk "Transfer completed successfully" "tx-1") /\
  get_pix_account alice (snd outcome)
    = (Ok (alice_account 0x1.9p+5), snd outcome) /\
  get_pix_account bob (snd outcome)
    = (Ok (bob_account (-0x1.9p+5)), snd outcome) /\
  PrimFloat.ltb (PIXAccount.balance (bob_account (-0x1.9p+5))) 0 = true.
Proof. repeat split; vm_compute; reflexivity. Qed.

(** ** The transaction history *)

#[local] Instance newer_first_transitive {A} (key : A -> datetime) :
  Transitive (newer_first key).
Proof. unfold newer_first. intros x y z. lia. Qed.

#[local] Instance newer_first_total {A} (key : A -> datetime) :
  Total (newer_first key).
Proof. unfold newer_first. intros x y. lia. Qed.

Lemma option_eqb_true o s : option_eqb o s = true <-> o = Some s.
Proof.
  destruct o as [s'|]; simpl; [|done].
  rewrite String.eqb_eq. split; congruence.
Qed.

Lemma involves_true uid tx :
  involves uid tx = true <->
  PIXTransaction.from_user_id tx = Some uid \/
  PIXTransaction.to_user_id tx = Some uid.
Proof.
  unfold involves. by rewrite orb_true_iff, !option_eqb_true.
Qed.

(** C5: the history of a user is drawn from the ledger entries that name
    the user as sender or as recipient, newest first, and holds at most 100
    of them: nothing else is returned, no entry is returned more often than
    it is stored, all of them are returned when there are at most 100, and
    an entry that is cut off is no newer than any entry returned. *)
Theorem history_is_newest_first_and_capped (current_user : User.t) (d : DB.t) :
  let uid := User.id current_user in
  let mine := List.filter (involves uid) (DB.pix_transactions d) in
  exists txs,
    get_pix_transactions current_user d = (Ok txs, d) /\
    (forall tx, tx ∈ txs ->
       tx ∈ DB.pix_transactions d /\
       (PIXTransaction.from_user_id tx = Some uid \/
        PIXTransaction.to_user_id tx = Some uid)) /\
    txs ⊆+ mine /\
    StronglySorted
      (fun x y => PIXTransaction.created_at y <= PIXTransaction.created_at x)
      txs /\
    (length txs <= 100)%nat /\
    ((length mine <= 100)%nat -> txs ≡ₚ mine) /\
    (forall tx, tx ∈ DB.pix_transactions d ->
       PIXTransaction.from_user_id tx = Some uid \/
       PIXTransaction.to_user_id tx = Some uid ->
       tx ∉ txs ->
       length txs = 100%nat /\
       forall tx', tx' ∈ txs ->
         PIXTransaction.created_at tx <= PIXTransaction.created_at tx').
Proof.
  intros uid mine.
  set (R := newer_first PIXTransaction.created_at).
  set (sorted := merge_sort R mine).
  exists (take 100 sorted).
  assert (sorted ≡ₚ mine) as Hperm by apply merge_sort_Permutation.
  assert (StronglySorted R sorted) as Hsorted
    by apply (StronglySorted_merge_sort R).
  rewrite <- (take_drop 100 sorted) in Hsorted.
  assert (forall tx, tx ∈ mine <->
            tx ∈ DB.pix_transactions d /\
            (PIXTransaction.from_user_id tx = Some uid \/
             PIXTransaction.to_user_id tx = Some uid)) as Hmine.
  { intros tx. unfold mine.
    by rewrite list_elem_of_In, filter_In, <- list_elem_of_In, involves_true. }
  split; [reflexivity|].
  split; [|split; [|split; [|split; [|split]]]].
  - intros tx Htx. apply Hmine. rewrite <- Hperm.
    eapply elem_of_submseteq; [exact Htx | apply submseteq_take].
  - rewrite <- Hperm. apply submseteq_take.
  - by apply StronglySorted_app_1_l in Hsorted.
  - rewrite length_take. lia.
  - intros Hlen. rewrite take_ge; [done|]. by rewrite Hperm.
  - intros tx Hin Hinv Hout.
    assert (tx ∈ drop 100 sorted) as Hdrop.
    { assert (tx ∈ sorted) as Hs by (rewrite Hperm; apply Hmine; done).
      rewrite <- (take_drop 100 sorted) in Hs.
      apply elem_of_app in Hs as [Hs | Hs]; [done | exact Hs]. }
    split.
    + apply length_take_le.
      destruct (decide (100 <= length sorted)%nat) as [|Hshort]; [done|].
      rewrite drop_ge in Hdrop by lia. by apply elem_of_nil in Hdrop.
    + intros tx' Htx'.
      apply (StronglySorted_app_1_elem_of R _ _ tx' tx Hsorted Htx' Hdrop).
Qed.

(** ** Card issuance *)

(** C6 fails on the code.  Bob's KYC is approved.  He asks for a card and
    sends [null] for the daily limit, which [CardCreate] admits (the field
    is [Optional[float]]).  The route hands [None] on to [VirtualCard],
    whose limits are plain floats: the request ends in an uncaught
    validation error and no card is created. *)
Theorem null_limit_breaks_card_creation :
  User.kyc_status bob = "approved" /\
  create_card (CardCreate.parse (CardCreate.mk_body "BOB LIMA" Null Omitted))
    bob "card-1" "4a1b2c3d4e5f6a7b" "123" "11/31" 9000 (two_customers 0 0)
  = (ValidationError, two_customers 0 0).
Proof. split; reflexivity. Qed.

(** The two paths of the route that work as meant: a user whose
    [kyc_status] is not "approved" is refused with HTTP 400 and nothing is
    written; an approved user who leaves both limits out of the request is
    answered a card with [daily_limit] 5000.0 and [monthly_limit] 50000.0,
    and the card is stored in [virtual_cards] with its [created_at] in
    milliseconds. *)
Theorem create_card_needs_kyc_and_defaults_limits
    (current_user : User.t) (holder : string)
    (card_id card_number cvv expiry_date : string) (now : datetime) (d : DB.t) :
  (forall card_data,
     User.kyc_status current_user <> "approved" ->
     create_card card_data current_user card_id card_number cvv expiry_date now d
     = (Raise (mkHTTPException 400 "KYC approval required for card creation"), d))
  /\
  (User.kyc_status current_user = "approved" ->
   exists card,
     create_card (CardCreate.parse (CardCreate.mk_body holder Omitted Omitted))
       current_user card_id card_number cvv expiry_date now d
     = (Ok card,
        DB.mk (DB.users d) (DB.kyc_documents d) (DB.pix_accounts d)
          (DB.pix_transactions d) (DB.virtual_cards d ++ [stored_card card])
          (DB.card_transactions d)) /\
     VirtualCard.user_id card = User.id current_user /\
     VirtualCard.card_holder_name card = holder /\
     VirtualCard.status card = "active" /\
     VirtualCard.daily_limit card = 5000%float /\
     VirtualCard.monthly_limit card = 50000%float).
Proof.
  split.
  - intros card_data Hkyc. unfold create_card.
    apply String.eqb_neq in Hkyc. by rewrite Hkyc.
  - intros Hkyc. unfold create_card. rewrite Hkyc. simpl.
    eexists. split; [reflexivity|]. done.
Qed.

(** Alice's KYC is pending, Bob's is approved; both ask for a card without
    naming limits. *)
Lemma create_card_needs_kyc_and_defaults_limits_witness :
  create_card (CardCreate.parse (CardCreate.mk_body "ALICE SOUZA" Omitted Omitted))
    alice "card-1" "4a1b2c3d4e5f6a7b" "123" "11/31" 9000 (two_customers 0 0)
  = (Raise (mkHTTPException 400 "KYC approval required for card creation"),
     two_customers 0 0) /\
  exists card,
    fst (create_card
           (CardCreate.parse (CardCreate.mk_body "BOB LIMA" Omitted Omitted))
           bob "card-1" "4a1b2c3d4e5f6a7b" "123" "11/31" 9000 (two_customers 0 0))
    = Ok card /\
    VirtualCard.daily_limit card = 5000%float /\
    VirtualCard.monthly_limit card = 50000%float.
Proof.
  split.
  - apply (create_card_needs_kyc_and_defaults_limits alice "ALICE SOUZA").
    discriminate.
  - destruct (create_card_needs_kyc_and_defaults_limits bob "BOB LIMA"
      "card-1" "4a1b2c3d4e5f6a7b" "123" "11/31" 9000 (two_customers 0 0))
      as [_ Hok].
    destruct (Hok eq_refl) as (card & Hrun & _ & _ & _ & Hday & Hmonth).
    exists card. rewrite Hrun. done.
Defined.

(** ** KYC review *)

Lemma is_decision_true status :
  is_decision status = true <->
  status = Some "approved" \/ status = Some "rejected".
Proof.
  destruct status as [s|]; simpl.
  - rewrite orb_true_iff, !String.eqb_eq. split; intros [?|?]; subst; auto;
      [left | right]; congruence.
  - split; [done | intros [?|?]; done].
Qed.

(** C8: a review whose status is neither "approved" nor "rejected" (or is
    missing) is refused with HTTP 400 and writes nothing.  With one of the
    two decisions, on a document that exists, the document takes that
    status and the user it belongs to takes it as [kyc_status]. *)
Theorem review_kyc_records_the_decision
    (kyc_id : string) (action : gmap string string) (current_user : User.t)
    (now : datetime) (d : DB.t) :
  let by_id := fun k => String.eqb (KYCDocument.id k) kyc_id in
  (action !! "status" <> Some "approved" ->
   action !! "status" <> Some "rejected" ->
   review_kyc kyc_id action current_user now d
   = (Raise (mkHTTPException 400 "Invalid status"), d))
  /\
  (forall status doc,
     action !! "status" = Some status ->
     status = "approved" \/ status = "rejected" ->
     first_match by_id (DB.kyc_documents d) = Some doc ->
     let by_owner :=
       fun u => String.eqb (User.id (User.user u)) (KYCDocument.user_id doc) in
     exists d' doc',
       review_kyc kyc_id action current_user now d
       = (Ok ("KYC " +:+ status +:+ " successfully"), d') /\
       first_match by_id (DB.kyc_documents d') = Some doc' /\
       KYCDocument.status doc' = status /\
       KYCDocument.user_id doc' = KYCDocument.user_id doc /\
       KYCDocument.reviewer_id doc' = Some (User.id current_user) /\
       (forall owner,
          first_match by_owner (DB.users d) = Some owner ->
          first_match by_owner (DB.users d')
            = Some (User.set_kyc_status status owner) /\
          User.kyc_status (User.user (User.set_kyc_status status owner)) = status)).
Proof.
  intros by_id. split.
  - intros Ha Hr. unfold review_kyc.
    destruct (is_decision (action !! "status")) eqn:E; [|done].
    apply is_decision_true in E as [?|?]; done.
  - intros status doc Hst Hdec Hdoc by_owner.
    assert (is_decision (Some status) = true) as Hok.
    { apply is_decision_true. destruct Hdec; subst; auto. }
    unfold review_kyc. rewrite Hst, Hok. simpl. run_route.
    fold by_id. rewrite Hdoc. simpl.
    set (upd := KYCDocument.set_review status now (User.id current_user)
                  (default "" (action !! "notes"))).
    assert (first_match by_id (update_first by_id upd (DB.kyc_documents d))
            = Some (upd doc)) as Hdoc'.
    { apply first_match_update_first; [done|].
      by destruct (first_match_Some _ _ _ Hdoc). }
    rewrite Hdoc'. simpl. fold by_owner.
    eexists _, (upd doc). split; [reflexivity|]. simpl.
    split; [exact Hdoc'|]. do 3 (split; [done|]).
    intros owner Howner. split; [|done].
    apply first_match_update_first; [done|].
    by destruct (first_match_Some _ _ _ Howner).
Qed.

(** Bob reviews Alice's document, first with a status that is no decision,
    then with "approved". *)
Lemma review_kyc_records_the_decision_witness :
  review_kyc "kyc-1" {[ "status" := "escalated" ]} bob 9000 awaiting_review
  = (Raise (mkHTTPException 400 "Invalid status"), awaiting_review) /\
  exists d',
    review_kyc "kyc-1" {[ "status" := "approved" ]} bob 9000 awaiting_review
    = (Ok "KYC approved successfully", d') /\
    first_match
      (fun u => String.eqb (User.id (User.user u)) "user-alice") (DB.users d')
    = Some (User.set_kyc_status "approved" (User.mk_doc alice "$2b$12$alice")).
Proof.
  split.
  - apply review_kyc_records_the_decision; vm_compute; discriminate.
  - destruct (review_kyc_records_the_decision "kyc-1"
      {[ "status" := "approved" ]} bob 9000 awaiting_review) as [_ Hok].
    destruct (Hok "approved" alice_document) as (d' & doc' & Hrun & _ & _ & _ & _ & Hu).
    + reflexivity.
    + by left.
    + reflexivity.
    + exists d'. split; [exact Hrun|].
      by destruct (Hu (User.mk_doc alice "$2b$12$alice") eq_refl).
Defined.

(** A decision on a document that does not exist is answered with HTTP
    404 and writes nothing. *)
Lemma review_kyc_unknown_document kyc_id action current_user now d :
  is_decision (action !! "status") = true ->
  first_match (fun k => String.eqb (KYCDocument.id k) kyc_id) (DB.kyc_documents d)
    = None ->
  review_kyc kyc_id action current_user now d
  = (Raise (mkHTTPException 404 "KYC document not found"), d).
Proof.
  intros Hok Hnone. unfold review_kyc. rewrite Hok. simpl. run_route.
  rewrite Hnone. simpl. rewrite update_first_no_match by done. by destruct d.
Qed.

(** ** Payment requests *)

(** Building a payment request reads one account and writes nothing,
    whatever the serializer and the renderer produce. *)
Lemma generate_pix_qr_reads_only json_dumps generate_qr_code str
    qr_data current_user d :
  snd (generate_pix_qr json_dumps generate_qr_code str qr_data current_user d) = d.
Proof.
  unfold generate_pix_qr. run_route.
  by destruct (first_match _ _).
Qed.

(** The text that is rendered is the serialization of the account's key,
    the requested amount and description, and the user's name. *)
Lemma generate_pix_qr_payload json_dumps generate_qr_code str
    qr_data current_user d account :
  first_match (by_user (User.id current_user)) (DB.pix_accounts d) = Some account ->
  fst (generate_pix_qr json_dumps generate_qr_code str qr_data current_user d)
  = Ok (QRReply.mk
          (generate_qr_code
             (json_dumps
                (QRPayload.mk (PIXAccount.pix_key account)
                   (PIXQRCode.amount qr_data) (PIXQRCode.description qr_data)
                   (User.full_name current_user))))
          (PIXAccount.pix_key account) (str (PIXQRCode.amount qr_data))).
Proof.
  intros Ha. unfold generate_pix_qr. run_route.
  fold (by_user (User.id current_user)). by rewrite Ha.
Qed.

(** * Further properties of the routes *)

(** Unfolds the monad, the collection operations and the cursors. *)
Ltac run_query :=
  unfold bind, find_one, insert_one, update_one, to_list, sort_desc, find,
    raise, ret; simpl.

Lemma first_match_app {A} (q : A -> bool) (c c' : list A) :
  first_match q (c ++ c') =
  match first_match q c with
  | Some x => Some x
  | None => first_match q c'
  end.
Proof.
  induction c as [|d c IH]; simpl; [done|]. by destruct (q d).
Qed.

Lemma first_match_no_key {A} (key : A -> string) (k : string) (c : list A) :
  k ∉ key <$> c -> first_match (fun x => String.eqb (key x) k) c = None.
Proof.
  induction c as [|d c IH]; [done|]. rewrite fmap_cons, not_elem_of_cons.
  intros [Hne Hin]. simpl. destruct (String.eqb (key d) k) eqn:E; [|auto].
  apply String.eqb_eq in E. congruence.
Qed.

(** ** Routes that only read *)

Lemma summarize_reads_only (pending_kyc : list KYCDocument.t) (d : DB.t) :
  exists result, summarize pending_kyc d = (Ok result, d) /\
                 length result = length pending_kyc.
Proof.
  induction pending_kyc as [|kyc rest [result [IH Hlen]]]; simpl.
  - by exists [].
  - run_query. rewrite IH. eexists. split; [reflexivity|]. simpl. by rewrite Hlen.
Qed.

(** X1: the routes behind GET, the login, the bearer dependency and the QR
    generator leave the database exactly as they found it, whatever they
    answer and whatever the password checker, the token decoder, the
    serializer and the renderer do. *)
Theorem read_routes_never_write
    (verify_password : string -> string -> bool)
    (jwt_decode : string -> jwt_decoded)
    (json_dumps : QRPayload.t -> string) (generate_qr_code : string -> string)
    (str : float -> string) (current_user : User.t) (d : DB.t) :
  (forall login_data token,
     snd (login verify_password login_data token d) = d) /\
  (forall credentials, snd (get_current_user jwt_decode credentials d) = d) /\
  snd (get_pix_account current_user d) = d /\
  (forall qr_data,
     snd (generate_pix_qr json_dumps generate_qr_code str qr_data current_user d)
     = d) /\
  snd (get_pix_transactions current_user d) = d /\
  snd (get_kyc_status current_user d) = d /\
  snd (get_pending_kyc current_user d) = d /\
  snd (get_cards current_user d) = d /\
  (forall card_id, snd (get_card_transactions card_id current_user d) = d).
Proof.
  repeat split.
  - intros login_data token. unfold login. run_query.
    destruct (first_match _ _); [|done]. by destruct (negb _).
  - intros credentials. unfold get_current_user.
    destruct (jwt_decode credentials) as [[uid|]| |]; try done.
    run_query. by destruct (first_match _ _).
  - unfold get_pix_account. run_query. by destruct (first_match _ _).
  - intros qr_data. unfold generate_pix_qr. run_query.
    by destruct (first_match _ _).
  - unfold get_kyc_status. run_query. by destruct (first_match _ _).
  - unfold get_pending_kyc. run_query.
    destruct (summarize_reads_only
      (take 100 (List.filter awaits_review (DB.kyc_documents d))) d)
      as (result & -> & _). done.
  - intros card_id. unfold get_card_transactions. run_query.
    by destruct (first_match _ _).
Qed.

(** ** Registration and login *)

Lemma register_cases user_data user_id account_id now_user now_account
    hashed_password token d :
  register user_data user_id account_id now_user now_account hashed_password
    token d =
  match first_match
          (fun u => String.eqb (User.email (User.user u))
                               (UserCreate.email user_data))
          (DB.users d) with
  | Some _ => (Raise (mkHTTPException 400 "Email already registered"), d)
  | None =>
    let user :=
      User.mk user_id (UserCreate.email user_data)
        (UserCreate.full_name user_data) (UserCreate.phone user_data)
        "pending" true now_user None in
    (Ok (Token.mk token "bearer" user),
     DB.mk (DB.users d ++ [User.mk_doc (stored_user user) hashed_password])
       (DB.kyc_documents d)
       (DB.pix_accounts d ++
          [PIXAccount.mk account_id user_id (UserCreate.email user_data)
             "email" "checking" 0%float true now_account])
       (DB.pix_transactions d) (DB.virtual_cards d) (DB.card_transactions d))
  end.
Proof.
  unfold register. run_query. by destruct (first_match _ _).
Qed.

(** X2: an address registers once.  After a successful registration every
    later registration with the same email, whatever the other fields, is
    answered with HTTP 400 "Email already registered" and writes nothing. *)
Theorem second_registration_is_refused
    user_data user_id account_id now_user now_account hashed_password token
    d reply d'
    again user_id' account_id' now_user' now_account' hashed_password' token' :
  register user_data user_id account_id now_user now_account hashed_password
    token d = (Ok reply, d') ->
  UserCreate.email again = UserCreate.email user_data ->
  register again user_id' account_id' now_user' now_account' hashed_password'
    token' d'
  = (Raise (mkHTTPException 400 "Email already registered"), d').
Proof.
  intros Hfirst Hmail. rewrite register_cases in Hfirst.
  destruct (first_match _ (DB.users d)) eqn:Hnew; [done|].
  injection Hfirst as _ <-. rewrite register_cases. simpl.
  rewrite first_match_app, Hmail, Hnew. simpl. by rewrite String.eqb_refl.
Qed.

Lemma second_registration_is_refused_witness :
  register (UserCreate.mk "alice@example.com" "another" "Alice Again" None)
    "user-alice-2" "acct-alice-2" 3000 3000 "$2b$12$again" "jwt-again"
    (snd (register alice_signup "user-alice" "acct-alice" 1000 1000
            "$2b$12$alice" "jwt-alice" DB.empty))
  = (Raise (mkHTTPException 400 "Email already registered"),
     snd (register alice_signup "user-alice" "acct-alice" 1000 1000
            "$2b$12$alice" "jwt-alice" DB.empty)).
Proof.
  apply (second_registration_is_refused alice_signup "user-alice" "acct-alice"
    1000 1000 "$2b$12$alice" "jwt-alice" DB.empty
    (Token.mk "jwt-alice" "bearer" alice)); reflexivity.
Defined.

(** X3: registration opens an empty account under the user's email.  When
    the new user id owns no account yet, a successful registration is
    followed by GET /pix/account answering, for that user, an account with
    balance 0.0 whose PIX key is the email given. *)
Theorem registration_opens_an_empty_account
    user_data user_id account_id now_user now_account hashed_password token
    d reply d' :
  user_id ∉ PIXAccount.user_id <$> DB.pix_accounts d ->
  register user_data user_id account_id now_user now_account hashed_password
    token d = (Ok reply, d') ->
  exists account,
    get_pix_account (Token.user reply) d' = (Ok account, d') /\
    PIXAccount.user_id account = User.id (Token.user reply) /\
    PIXAccount.pix_key account = UserCreate.email user_data /\
    PIXAccount.pix_key_type account = "email" /\
    PIXAccount.balance account = 0%float.
Proof.
  intros Hfresh Hrun. rewrite register_cases in Hrun.
  destruct (first_match _ (DB.users d)); [done|].
  injection Hrun as <- <-. unfold get_pix_account. run_query.
  rewrite first_match_app.
  rewrite (first_match_no_key PIXAccount.user_id user_id _ Hfresh). simpl.
  rewrite String.eqb_refl. eexists. split; [reflexivity|]. done.
Qed.

Lemma registration_opens_an_empty_account_witness :
  exists account,
    get_pix_account alice
      (snd (register alice_signup "user-alice" "acct-alice" 1000 1000
              "$2b$12$alice" "jwt-alice" DB.empty))
    = (Ok account,
       snd (register alice_signup "user-alice" "acct-alice" 1000 1000
              "$2b$12$alice" "jwt-alice" DB.empty)) /\
    PIXAccount.balance account = 0%float.
Proof.
  destruct (registration_opens_an_empty_account alice_signup "user-alice"
    "acct-alice" 1000 1000 "$2b$12$alice" "jwt-alice" DB.empty
    (Token.mk "jwt-alice" "bearer" alice)
    (snd (register alice_signup "user-alice" "acct-alice" 1000 1000
            "$2b$12$alice" "jwt-alice" DB.empty)))
    as (account & Hget & _ & _ & _ & Hbal).
  - apply not_elem_of_nil.
  - reflexivity.
  - exists account. split; [exact Hget | exact Hbal].
Defined.

(** X4: a registered user can log in.  After a successful registration, a
    login with the same email and a password that the checker accepts
    against the stored hash succeeds and answers the user as the database
    holds it: the user that was registered, with [created_at] cut to
    milliseconds and every other field as registered. *)
Theorem login_after_registration
    (verify_password : string -> string -> bool)
    user_data user_id account_id now_user now_account hashed_password token
    d reply d' password token' :
  register user_data user_id account_id now_user now_account hashed_password
    token d = (Ok reply, d') ->
  verify_password password hashed_password = true ->
  exists user,
    login verify_password (UserLogin.mk (UserCreate.email user_data) password)
      token' d'
    = (Ok (Token.mk token' "bearer" user), d') /\
    user = stored_user (Token.user reply) /\
    User.id user = user_id /\
    User.email user = UserCreate.email user_data /\
    User.full_name user = UserCreate.full_name user_data /\
    User.phone user = UserCreate.phone user_data /\
    User.kyc_status user = "pending" /\
    User.is_active user = true /\
    User.created_at user = 1000 * (now_user / 1000) /\
    User.created_at (Token.user reply) = now_user.
Proof.
  intros Hrun Hpw. rewrite register_cases in Hrun.
  destruct (first_match _ (DB.users d)) eqn:Hnew; [done|].
  injection Hrun as <- <-. eexists. split; [|done].
  unfold login. run_query.
  rewrite first_match_app, Hnew. simpl. rewrite String.eqb_refl. simpl.
  by rewrite Hpw.
Qed.

(** Alice registered at 1000.250 ms; the login answers 1000 ms. *)
Lemma login_after_registration_witness :
  let d' :=
    snd (register alice_signup "user-alice" "acct-alice" 1000250 1000250
           "$2b$12$alice" "jwt-alice" DB.empty) in
  exists user,
    login (fun plain hashed => String.eqb hashed ("$2b$12$" +:+ plain))
      (UserLogin.mk "alice@example.com" "alice") "jwt-2" d'
    = (Ok (Token.mk "jwt-2" "bearer" user), d') /\
    User.id user = "user-alice" /\
    User.created_at user = 1000000.
Proof.
  intros d'.
  destruct (login_after_registration
    (fun plain hashed => String.eqb hashed ("$2b$12$" +:+ plain))
    alice_signup "user-alice" "acct-alice" 1000250 1000250 "$2b$12$alice"
    "jwt-alice" DB.empty
    (Token.mk "jwt-alice" "bearer"
       (User.mk "user-alice" "alice@example.com" "Alice Souza" None "pending"
          true 1000250 None))
    d' "alice" "jwt-2" eq_refl eq_refl)
    as (user & Hlogin & _ & Hid & _ & _ & _ & _ & _ & Hat & _).
  exists user. split; [exact Hlogin|]. split; [exact Hid | exact Hat].
Defined.

(** X5: a new account cannot send money.  Right after a registration under
    a user id that owned no account, every transfer of a positive amount by
    that user is refused with HTTP 400 "Insufficient balance", whatever the
    key, and writes nothing. *)
Theorem new_account_cannot_send
    user_data user_id account_id now_user now_account hashed_password token
    d reply d' transfer_data tx_id completed created :
  user_id ∉ PIXAccount.user_id <$> DB.pix_accounts d ->
  register user_data user_id account_id now_user now_account hashed_password
    token d = (Ok reply, d') ->
  PrimFloat.ltb 0 (PIXTransfer.amount transfer_data) = true ->
  pix_transfer transfer_data (Token.user reply) tx_id completed created d'
  = (Raise (mkHTTPException 400 "Insufficient balance"), d').
Proof.
  intros Hfresh Hrun Hpos. rewrite register_cases in Hrun.
  destruct (first_match _ (DB.users d)); [done|].
  injection Hrun as <- <-. rewrite pix_transfer_cases. simpl.
  unfold by_user at 1. rewrite first_match_app.
  rewrite (first_match_no_key PIXAccount.user_id user_id _ Hfresh). simpl.
  rewrite String.eqb_refl. simpl. by rewrite Hpos.
Qed.

Lemma new_account_cannot_send_witness :
  pix_transfer (PIXTransfer.mk "bob@example.com" 0x1.4p+3 None) alice
    "tx-1" 5000 5001
    (snd (register alice_signup "user-alice" "acct-alice" 1000 1000
            "$2b$12$alice" "jwt-alice" DB.empty))
  = (Raise (mkHTTPException 400 "Insufficient balance"),
     snd (register alice_signup "user-alice" "acct-alice" 1000 1000
            "$2b$12$alice" "jwt-alice" DB.empty)).
Proof.
  apply (new_account_cannot_send alice_signup "user-alice" "acct-alice"
    1000 1000 "$2b$12$alice" "jwt-alice" DB.empty
    (Token.mk "jwt-alice" "bearer" alice));
    [apply not_elem_of_nil | reflexivity | reflexivity].
Defined.

(** ** What a transfer leaves alone, and where it shows *)

(** X6: a transfer moves balances and nothing else.  Whatever it answers,
    users, KYC documents, cards and card transactions are untouched, the
    accounts are the same accounts up to their balances, and the ledger
    before is a prefix of the ledger after. *)
Theorem transfer_changes_balances_only
    transfer_data current_user tx_id completed created d :
  let d' :=
    snd (pix_transfer transfer_data current_user tx_id completed created d) in
  DB.users d' = DB.users d /\
  DB.kyc_documents d' = DB.kyc_documents d /\
  DB.virtual_cards d' = DB.virtual_cards d /\
  DB.card_transactions d' = DB.card_transactions d /\
  PIXAccount.set_balance 0 <$> DB.pix_accounts d'
    = PIXAccount.set_balance 0 <$> DB.pix_accounts d /\
  DB.pix_transactions d `prefix_of` DB.pix_transactions d'.
Proof.
  intros d'. subst d'. rewrite pix_transfer_cases.
  destruct (first_match (by_user _) _); [|done].
  destruct (PrimFloat.ltb _ _); [done|].
  destruct (first_match (by_key _) _); [|done].
  simpl. repeat split; [|by apply prefix_app_r].
  unfold settled. by rewrite !update_first_fmap.
Qed.

(** X7: a completed transfer shows in the history of both sides.  For the
    sender and for the owner of the recipient account, as long as their
    history held fewer than 100 entries, GET /pix/transactions after the
    transfer lists the new entry, with the transaction id that was
    answered. *)
Theorem transfer_shows_in_history
    transfer_data current_user tx_id completed created d reply d'
    recipient reader :
  pix_transfer transfer_data current_user tx_id completed created d
    = (Ok reply, d') ->
  first_match (by_key (PIXTransfer.to_pix_key transfer_data)) (DB.pix_accounts d)
    = Some recipient ->
  User.id reader = User.id current_user \/
  User.id reader = PIXAccount.user_id recipient ->
  (length (List.filter (involves (User.id reader)) (DB.pix_transactions d))
   < 100)%nat ->
  exists txs tx,
    get_pix_transactions reader d' = (Ok txs, d') /\
    tx ∈ txs /\
    PIXTransaction.id tx = TransferReply.transaction_id reply /\
    PIXTransaction.amount tx = PIXTransfer.amount transfer_data /\
    PIXTransaction.status tx = "completed".
Proof.
  intros Hrun Hr Hwho Hfew. rewrite pix_transfer_cases, Hr in Hrun.
  destruct (first_match (by_user _) _) as [sender|]; [|done].
  destruct (PrimFloat.ltb _ _); [done|].
  injection Hrun as <- <-.
  set (tx := transfer_record transfer_data current_user sender recipient
               tx_id completed created).
  unfold get_pix_transactions. run_query.
  eexists _, tx. split; [reflexivity|]. split; [|done].
  assert (involves (User.id reader) tx = true) as Hmine.
  { apply involves_true. simpl. destruct Hwho as [-> | ->]; auto. }
  rewrite List.filter_app. simpl. rewrite Hmine.
  rewrite take_ge.
  - rewrite merge_sort_Permutation. apply elem_of_app. right. left.
  - rewrite merge_sort_Permutation, length_app. simpl. lia.
Qed.

Lemma transfer_shows_in_history_witness :
  exists txs tx,
    get_pix_transactions bob
      (snd (pix_transfer (PIXTransfer.mk "bob@example.com" 0x1.ep+4 None)
              alice "tx-1" 5000 5001 (two_customers 0x1.9p+6 0)))
    = (Ok txs,
       snd (pix_transfer (PIXTransfer.mk "bob@example.com" 0x1.ep+4 None)
              alice "tx-1" 5000 5001 (two_customers 0x1.9p+6 0))) /\
    tx ∈ txs /\ PIXTransaction.id tx = "tx-1".
Proof.
  destruct (transfer_shows_in_history
    (PIXTransfer.mk "bob@example.com" 0x1.ep+4 None) alice "tx-1" 5000 5001
    (two_customers 0x1.9p+6 0)
    (TransferReply.mk "Transfer completed successfully" "tx-1")
    (snd (pix_transfer (PIXTransfer.mk "bob@example.com" 0x1.ep+4 None)
            alice "tx-1" 5000 5001 (two_customers 0x1.9p+6 0)))
    (bob_account 0) bob) as (txs & tx & Hget & Hin & Hid & _).
  - reflexivity.
  - reflexivity.
  - by right.
  - simpl. lia.
  - exists txs, tx. split; [exact Hget|]. split; [exact Hin | exact Hid].
Defined.

(** ** The KYC workflow *)

Lemma submit_kyc_cases kyc_data current_user doc_id now d :
  submit_kyc kyc_data current_user doc_id now d =
  if blocks_submission
       (first_match (kyc_of (User.id current_user)) (DB.kyc_documents d))
  then (Raise (mkHTTPException 400 "KYC already submitted"), d)
  else
    (Ok (KYCSubmitReply.mk "KYC submitted successfully" "analyzing"),
     DB.mk
       (update_first (user_by_id (User.id current_user))
          (User.set_kyc_status "in_review") (DB.users d))
       (DB.kyc_documents d ++
          [KYCDocument.mk doc_id (User.id current_user)
             (KYCSubmission.document_type kyc_data)
             (KYCSubmission.document_number kyc_data)
             (KYCSubmission.document_image kyc_data)
             (KYCSubmission.selfie_image kyc_data)
             "analyzing" now None None None])
       (DB.pix_accounts d) (DB.pix_transactions d) (DB.virtual_cards d)
       (DB.card_transactions d)).
Proof.
  unfold submit_kyc. run_query.
  fold (kyc_of (User.id current_user)).
  by destruct (blocks_submission _).
Qed.

Lemma review_kyc_cases kyc_id action current_user now d :
  review_kyc kyc_id action current_user now d =
  if negb (is_decision (action !! "status"))
  then (Raise (mkHTTPException 400 "Invalid status"), d)
  else
    let status := default "" (action !! "status") in
    match first_match (kyc_by_id kyc_id) (DB.kyc_documents d) with
    | None => (Raise (mkHTTPException 404 "KYC document not found"), d)
    | Some doc =>
      (Ok ("KYC " +:+ status +:+ " successfully"),
       DB.mk
         (update_first (user_by_id (KYCDocument.user_id doc))
            (User.set_kyc_status status) (DB.users d))
         (update_first (kyc_by_id kyc_id)
            (KYCDocument.set_review status now (User.id current_user)
               (default "" (action !! "notes")))
            (DB.kyc_documents d))
         (DB.pix_accounts d) (DB.pix_transactions d) (DB.virtual_cards d)
         (DB.card_transactions d))
    end.
Proof.
  unfold review_kyc. destruct (negb _); [done|]. run_query.
  fold (kyc_by_id kyc_id).
  destruct (first_match (kyc_by_id kyc_id) (DB.kyc_documents d)) as [doc|] eqn:Hdoc;
    simpl.
  - rewrite (first_match_update_first _ _ _ _ Hdoc).
    + done.
    + by destruct (first_match_Some _ _ _ Hdoc).
  - rewrite update_first_no_match by done. by destruct d.
Qed.

(** X8: a first submission is recorded.  For a user without a KYC
    document, POST /kyc/submit succeeds, GET /kyc/status then answers
    "analyzing" with the submission time and no reviewer notes, and the
    user's own record carries [kyc_status] "in_review". *)
Theorem first_submission_is_recorded
    kyc_data current_user doc_id now d :
  first_match (kyc_of (User.id current_user)) (DB.kyc_documents d) = None ->
  exists d',
    submit_kyc kyc_data current_user doc_id now d
      = (Ok (KYCSubmitReply.mk "KYC submitted successfully" "analyzing"), d') /\
    get_kyc_status current_user d' = (Ok (Submitted "analyzing" now None), d') /\
    (forall owner,
       first_match (user_by_id (User.id current_user)) (DB.users d) = Some owner ->
       first_match (user_by_id (User.id current_user)) (DB.users d')
         = Some (User.set_kyc_status "in_review" owner)).
Proof.
  intros Hnone. rewrite submit_kyc_cases, Hnone. simpl.
  eexists. split; [reflexivity|]. split.
  - unfold get_kyc_status. run_query.
    fold (kyc_of (User.id current_user)).
    rewrite first_match_app, Hnone. simpl. unfold kyc_of. simpl.
    by rewrite String.eqb_refl.
  - simpl. intros owner Howner.
    apply first_match_update_first; [done|].
    by destruct (first_match_Some _ _ _ Howner).
Qed.

Lemma first_submission_is_recorded_witness :
  exists d',
    submit_kyc (KYCSubmission.mk "cpf" "12345678901" "aW1hZ2U=" "c2VsZmll")
      alice "kyc-1" 4000 (two_customers 0 0)
    = (Ok (KYCSubmitReply.mk "KYC submitted successfully" "analyzing"), d') /\
    get_kyc_status alice d' = (Ok (Submitted "analyzing" 4000 None), d').
Proof.
  destruct (first_submission_is_recorded
    (KYCSubmission.mk "cpf" "12345678901" "aW1hZ2U=" "c2VsZmll")
    alice "kyc-1" 4000 (two_customers 0 0) eq_refl) as (d' & Hrun & Hget & _).
  exists d'. split; [exact Hrun | exact Hget].
Defined.



(** X10: after a rejection the oldest document keeps deciding.  When the
    first document of a user is rejected, a new submission is accepted,
    but GET /kyc/status goes on answering with the rejected document, and
    the next submission is accepted again: both routes look at the first
    document of the user only. *)
Theorem resubmission_after_rejection
    kyc_data current_user doc_id now d old :
  first_match (kyc_of (User.id current_user)) (DB.kyc_documents d) = Some old ->
  KYCDocument.status old = "rejected" ->
  exists d',
    submit_kyc kyc_data current_user doc_id now d
      = (Ok (KYCSubmitReply.mk "KYC submitted successfully" "analyzing"), d') /\
    length (DB.kyc_documents d') = S (length (DB.kyc_documents d)) /\
    get_kyc_status current_user d'
      = (Ok (Submitted "rejected" (KYCDocument.submitted_at old)
               (KYCDocument.reviewer_notes old)), d') /\
    (forall kyc_data' doc_id' now',
       fst (submit_kyc kyc_data' current_user doc_id' now' d')
       = Ok (KYCSubmitReply.mk "KYC submitted successfully" "analyzing")).
Proof.
  intros Hold Hrej. rewrite submit_kyc_cases, Hold. simpl. rewrite Hrej. simpl.
  eexists. split; [reflexivity|]. simpl. split; [|split].
  - rewrite length_app. simpl. lia.
  - unfold get_kyc_status. run_query.
    fold (kyc_of (User.id current_user)).
    by rewrite first_match_app, Hold, Hrej.
  - intros kyc_data' doc_id' now'. rewrite submit_kyc_cases. simpl.
    rewrite first_match_app, Hold. simpl. by rewrite Hrej.
Qed.

Lemma resubmission_after_rejection_witness :
  let rejected :=
    KYCDocument.mk "kyc-1" "user-alice" "cpf" "12345678901" "aW1hZ2U="
      "c2VsZmll" "rejected" 4000 (Some 4100) (Some "user-bob")
      (Some "blurred") in
  let d := DB.mk (DB.users (two_customers 0 0)) [rejected] [] [] [] [] in
  exists d',
    submit_kyc (KYCSubmission.mk "cpf" "12345678901" "bmV3" "bmV3")
      alice "kyc-2" 4500 d
    = (Ok (KYCSubmitReply.mk "KYC submitted successfully" "analyzing"), d') /\
    get_kyc_status alice d'
    = (Ok (Submitted "rejected" 4000 (Some "blurred")), d').
Proof.
  intros rejected d.
  destruct (resubmission_after_rejection
    (KYCSubmission.mk "cpf" "12345678901" "bmV3" "bmV3")
    alice "kyc-2" 4500 d rejected eq_refl eq_refl)
    as (d' & Hrun & _ & Hget & _).
  exists d'. split; [exact Hrun | exact Hget].
Defined.

(** What the loop of GET /admin/kyc/pending makes of the documents it is
    given: one entry per document, with the document's id and status. *)
Lemma summarize_entries (pending_kyc : list KYCDocument.t) (d : DB.t) :
  exists result,
    summarize pending_kyc d = (Ok result, d) /\
    (fun e => (PendingKYC.kyc_id e, PendingKYC.status e)) <$> result
    = (fun k => (KYCDocument.id k, KYCDocument.status k)) <$> pending_kyc.
Proof.
  induction pending_kyc as [|kyc rest [result [IH Hfields]]]; simpl.
  - by exists [].
  - run_query. rewrite IH. eexists. split; [reflexivity|].
    rewrite !fmap_cons, Hfields. done.
Qed.



(** X12: a reviewed document leaves the queue.  With document ids that
    are unique, once PUT /admin/kyc/{id}/review has succeeded for an id, no
    entry of GET /admin/kyc/pending carries that id. *)
Theorem reviewed_document_leaves_the_queue
    kyc_id action current_user now d message d' reader :
  NoDup (KYCDocument.id <$> DB.kyc_documents d) ->
  review_kyc kyc_id action current_user now d = (Ok message, d') ->
  exists entries,
    get_pending_kyc reader d' = (Ok entries, d') /\
    forall e, e ∈ entries -> PendingKYC.kyc_id e <> kyc_id.
Proof.
  intros Hnd Hrun. rewrite review_kyc_cases in Hrun.
  destruct (is_decision (action !! "status")) eqn:Hdec; [|done]. simpl in Hrun.
  destruct (first_match (kyc_by_id kyc_id) (DB.kyc_documents d))
    as [doc|] eqn:Hdoc; [|done].
  injection Hrun as _ <-.
  set (upd := KYCDocument.set_review (default "" (action !! "status")) now
                (User.id current_user) (default "" (action !! "notes"))).
  set (docs' := update_first (kyc_by_id kyc_id) upd (DB.kyc_documents d)).
  unfold get_pending_kyc. run_query. fold upd docs'.
  set (page := take 100 (List.filter awaits_review docs')).
  match goal with |- context [summarize page ?db] =>
    destruct (summarize_entries page db) as (entries & Hsum & Hfields) end.
  exists entries. split; [exact Hsum|]. intros e He Hid.
  assert ((PendingKYC.kyc_id e, PendingKYC.status e)
          ∈ (fun k => (KYCDocument.id k, KYCDocument.status k)) <$> page) as Hin.
  { rewrite <- Hfields.
    by apply (list_elem_of_fmap_2
                (fun e => (PendingKYC.kyc_id e, PendingKYC.status e))). }
  apply list_elem_of_fmap in Hin as (k & Hk & Hkin). injection Hk as Hkid _.
  assert (k ∈ List.filter awaits_review docs') as Hf.
  { eapply elem_of_submseteq; [exact Hkin | apply submseteq_take]. }
  apply list_elem_of_In, filter_In in Hf as [Hstored Hwait].
  apply list_elem_of_In in Hstored.
  destruct (first_match_Some _ _ _ Hdoc) as [Hdid _].
  assert (first_match (kyc_by_id kyc_id) docs' = Some (upd doc)) as Hupd
    by (by apply first_match_update_first).
  destruct (first_match_Some _ _ _ Hupd) as [_ Hupdin].
  assert (k = upd doc) as ->.
  { apply (unique_key_inj KYCDocument.id docs'); [|done|done|].
    - unfold docs'. by rewrite update_first_fmap.
    - simpl. apply String.eqb_eq in Hdid. congruence. }
  unfold upd, awaits_review in Hwait. simpl in Hwait.
  apply is_decision_true in Hdec as [Hs | Hs]; by rewrite Hs in Hwait.
Qed.

Lemma reviewed_document_leaves_the_queue_witness :
  exists entries,
    get_pending_kyc bob
      (snd (review_kyc "kyc-1" {[ "status" := "rejected" ]} bob 9000
              awaiting_review))
    = (Ok entries,
       snd (review_kyc "kyc-1" {[ "status" := "rejected" ]} bob 9000
              awaiting_review)) /\
    forall e, e ∈ entries -> PendingKYC.kyc_id e <> "kyc-1".
Proof.
  apply (reviewed_document_leaves_the_queue "kyc-1"
    {[ "status" := "rejected" ]} bob 9000 awaiting_review
    "KYC rejected successfully").
  - compute_done.
  - reflexivity.
Defined.

(** X13: a submitted document enters the queue.  After a submission that
    succeeded, as long as fewer than 100 documents were waiting, GET
    /admin/kyc/pending lists the new document with status "analyzing". *)
Theorem submitted_document_enters_the_queue
    kyc_data current_user doc_id now d reply d' reader :
  submit_kyc kyc_data current_user doc_id now d = (Ok reply, d') ->
  (length (List.filter awaits_review (DB.kyc_documents d)) < 100)%nat ->
  exists entries e,
    get_pending_kyc reader d' = (Ok entries, d') /\
    e ∈ entries /\
    PendingKYC.kyc_id e = doc_id /\
    PendingKYC.status e = "analyzing".
Proof.
  intros Hrun Hfew. rewrite submit_kyc_cases in Hrun.
  destruct (blocks_submission _); [done|]. injection Hrun as _ <-.
  unfold get_pending_kyc. run_query.
  match goal with |- context [summarize ?page ?db] =>
    destruct (summarize_entries page db) as (entries & Hsum & Hfields) end.
  assert ((doc_id, "analyzing")
          ∈ (fun e => (PendingKYC.kyc_id e, PendingKYC.status e)) <$> entries)
    as Hin.
  { rewrite Hfields, List.filter_app. simpl.
    rewrite take_ge by (rewrite length_app; simpl; lia).
    rewrite fmap_app. apply elem_of_app. right. left. }
  apply list_elem_of_fmap in Hin as (e & He & Hein). injection He as Hid Hst.
  exists entries, e. by rewrite Hsum.
Qed.

Lemma submitted_document_enters_the_queue_witness :
  let d' :=
    snd (submit_kyc (KYCSubmission.mk "cpf" "12345678901" "aW1hZ2U=" "c2VsZmll")
           alice "kyc-1" 4000 (two_customers 0 0)) in
  exists entries e,
    get_pending_kyc bob d' = (Ok entries, d') /\ e ∈ entries /\
    PendingKYC.kyc_id e = "kyc-1" /\ PendingKYC.status e = "analyzing".
Proof.
  intros d'.
  apply (submitted_document_enters_the_queue
    (KYCSubmission.mk "cpf" "12345678901" "aW1hZ2U=" "c2VsZmll")
    alice "kyc-1" 4000 (two_customers 0 0)
    (KYCSubmitReply.mk "KYC submitted successfully" "analyzing")).
  - reflexivity.
  - simpl. lia.
Defined.

(** X14: the reviewer's decision reaches the card gate.  After a review
    that succeeded with status [s] on a document whose owner exists, the
    bearer dependency loads the owner with [kyc_status] [s]; with "approved"
    that user's card request with default limits succeeds, with any other
    decision every card request is refused with HTTP 400. *)
Theorem decision_reaches_the_card_gate
    (jwt_decode : string -> jwt_decoded)
    kyc_id action reviewer now d message d' doc owner credentials status :
  review_kyc kyc_id action reviewer now d = (Ok message, d') ->
  action !! "status" = Some status ->
  first_match (kyc_by_id kyc_id) (DB.kyc_documents d) = Some doc ->
  first_match (user_by_id (KYCDocument.user_id doc)) (DB.users d) = Some owner ->
  jwt_decode credentials = Payload (Some (KYCDocument.user_id doc)) ->
  exists user,
    get_current_user jwt_decode credentials d' = (Ok user, d') /\
    User.id user = KYCDocument.user_id doc /\
    User.kyc_status user = status /\
    (status = "approved" ->
     forall holder card_id card_number cvv expiry_date issued,
     exists card,
       fst (create_card
              (CardCreate.parse (CardCreate.mk_body holder Omitted Omitted))
              user card_id card_number cvv expiry_date issued d')
       = Ok card) /\
    (status <> "approved" ->
     forall card_data card_id card_number cvv expiry_date issued,
       create_card card_data user card_id card_number cvv expiry_date issued d'
       = (Raise (mkHTTPException 400 "KYC approval required for card creation"),
          d')).
Proof.
  intros Hrun Hst Hdoc Howner Hjwt. rewrite review_kyc_cases, Hst, Hdoc in Hrun.
  destruct (negb _); [done|]. injection Hrun as _ <-.
  destruct (first_match_Some _ _ _ Howner) as [Hoid _].
  exists (User.user (User.set_kyc_status status owner)).
  split; [|split; [|split; [|split]]].
  - unfold get_current_user. rewrite Hjwt. run_query.
    fold (user_by_id (KYCDocument.user_id doc)).
    by rewrite (first_match_update_first _ _ _ _ Howner).
  - simpl. by apply String.eqb_eq in Hoid.
  - done.
  - intros -> holder card_id card_number cvv expiry_date issued.
    eexists. unfold create_card. simpl. reflexivity.
  - intros Hno card_data card_id card_number cvv expiry_date issued.
    unfold create_card. simpl. apply String.eqb_neq in Hno. by rewrite Hno.
Qed.

Lemma decision_reaches_the_card_gate_witness :
  let d' :=
    snd (review_kyc "kyc-1" {[ "status" := "approved" ]} bob 9000
           awaiting_review) in
  exists user,
    get_current_user (fun token => Payload (Some token)) "user-alice" d'
      = (Ok user, d') /\
    User.kyc_status user = "approved".
Proof.
  intros d'.
  destruct (decision_reaches_the_card_gate (fun token => Payload (Some token))
    "kyc-1" {[ "status" := "approved" ]} bob 9000 awaiting_review
    "KYC approved successfully" d' alice_document
    (User.mk_doc alice "$2b$12$alice") "user-alice" "approved")
    as (user & Hget & _ & Hkyc & _); try reflexivity.
  exists user. split; [exact Hget | exact Hkyc].
Defined.

(** ** Cards *)

Lemma first_match_nowhere {A} (q : A -> bool) (c : list A) :
  (forall x, x ∈ c -> q x = false) -> first_match q c = None.
Proof.
  induction c as [|d c IH]; simpl; [done|]. intros H.
  rewrite (H d) by left. apply IH. intros x Hx. apply H. by right.
Qed.

(** An update undone by a second update through the same query. *)
Lemma update_first_undo {A} (q : A -> bool) (f g : A -> A) (c : list A) x :
  first_match q c = Some x -> q (f x) = true -> g (f x) = x ->
  update_first q g (update_first q f c) = c.
Proof.
  induction c as [|d c IH]; simpl; [done|].
  destruct (q d) eqn:Hd.
  - intros [= <-] Hq Hg. simpl. by rewrite Hq, Hg.
  - intros Hx Hq Hg. simpl. rewrite Hd. by rewrite IH.
Qed.

Lemma block_card_cases card_id current_user now d :
  block_card card_id current_user now d =
  match first_match (owned_card card_id current_user) (DB.virtual_cards d) with
  | None => (Raise (mkHTTPException 404 "Card not found"), d)
  | Some _ =>
    (Ok "Card blocked successfully",
     DB.mk (DB.users d) (DB.kyc_documents d) (DB.pix_accounts d)
       (DB.pix_transactions d)
       (update_first (owned_card card_id current_user)
          (set_card_block "blocked" (Some now)) (DB.virtual_cards d))
       (DB.card_transactions d))
  end.
Proof.
  unfold block_card. run_query.
  destruct (first_match _ _) eqn:E; simpl; [done|].
  rewrite update_first_no_match by done. by destruct d.
Qed.

Lemma unblock_card_cases card_id current_user d :
  unblock_card card_id current_user d =
  match first_match (owned_card card_id current_user) (DB.virtual_cards d) with
  | None => (Raise (mkHTTPException 404 "Card not found"), d)
  | Some _ =>
    (Ok "Card unblocked successfully",
     DB.mk (DB.users d) (DB.kyc_documents d) (DB.pix_accounts d)
       (DB.pix_transactions d)
       (update_first (owned_card card_id current_user)
          (set_card_block "active" None) (DB.virtual_cards d))
       (DB.card_transactions d))
  end.
Proof.
  unfold unblock_card. run_query.
  destruct (first_match _ _) eqn:E; simpl; [done|].
  rewrite update_first_no_match by done. by destruct d.
Qed.

Lemma update_card_limits_cases card_id limits current_user d :
  update_card_limits card_id limits current_user d =
  match first_match (owned_card card_id current_user) (DB.virtual_cards d) with
  | None => (Raise (mkHTTPException 404 "Card not found"), d)
  | Some _ =>
    (Ok "Card limits updated successfully",
     DB.mk (DB.users d) (DB.kyc_documents d) (DB.pix_accounts d)
       (DB.pix_transactions d)
       (update_first (owned_card card_id current_user)
          (set_card_limits (CardLimits.daily_limit limits)
                           (CardLimits.monthly_limit limits))
          (DB.virtual_cards d))
       (DB.card_transactions d))
  end.
Proof.
  unfold update_card_limits. run_query.
  destruct (first_match _ _) eqn:E; simpl; [done|].
  rewrite update_first_no_match by done. by destruct d.
Qed.

(** X15: the card routes check ownership.  When no card with the given id
    belongs to the caller, blocking, unblocking, changing the limits and
    reading the transactions are all answered with HTTP 404 "Card not
    found", and none of them writes, even though the card may exist and
    belong to somebody else. *)
Theorem card_routes_check_ownership card_id current_user now limits d :
  (forall c, c ∈ DB.virtual_cards d -> VirtualCard.id c = card_id ->
             VirtualCard.user_id c <> User.id current_user) ->
  let not_found := (Raise (mkHTTPException 404 "Card not found"), d) in
  block_card card_id current_user now d = not_found /\
  unblock_card card_id current_user d = not_found /\
  update_card_limits card_id limits current_user d = not_found /\
  get_card_transactions card_id current_user d
  = (Raise (mkHTTPException 404 "Card not found"), d).
Proof.
  intros Hforeign not_found.
  assert (first_match (owned_card card_id current_user) (DB.virtual_cards d)
          = None) as Hnone.
  { apply first_match_nowhere. intros c Hc. unfold owned_card.
    destruct (String.eqb (VirtualCard.id c) card_id) eqn:Hid; [|done].
    apply String.eqb_eq in Hid. simpl. apply String.eqb_neq. auto. }
  rewrite block_card_cases, unblock_card_cases, update_card_limits_cases, Hnone.
  repeat split. unfold get_card_transactions. run_query. by rewrite Hnone.
Qed.

(** Alice asks for Bob's card. *)
Lemma card_routes_check_ownership_witness :
  block_card "card-1" alice 9500 with_card
    = (Raise (mkHTTPException 404 "Card not found"), with_card) /\
  update_card_limits "card-1" (CardLimits.mk 0x1p+20 0x1p+20) alice with_card
    = (Raise (mkHTTPException 404 "Card not found"), with_card).
Proof.
  destruct (card_routes_check_ownership "card-1" alice 9500
    (CardLimits.mk 0x1p+20 0x1p+20) with_card) as (Hb & _ & Hl & _).
  - intros c Hc _. apply list_elem_of_singleton in Hc. by subst.
  - split; [exact Hb | exact Hl].
Defined.

(** X16: blocking is undone by unblocking.  For a card of the caller that
    is active and was never blocked, PUT block succeeds and leaves the card
    "blocked" with the time of the call, and PUT unblock after it succeeds
    and restores the database as it was before the two calls. *)
Theorem block_then_unblock_restores card_id current_user now d card :
  first_match (owned_card card_id current_user) (DB.virtual_cards d) = Some card ->
  VirtualCard.status card = "active" ->
  VirtualCard.blocked_at card = None ->
  exists blocked,
    block_card card_id current_user now d = (Ok "Card blocked successfully", blocked) /\
    first_match (owned_card card_id current_user) (DB.virtual_cards blocked)
      = Some (set_card_block "blocked" (Some now) card) /\
    unblock_card card_id current_user blocked
      = (Ok "Card unblocked successfully", d).
Proof.
  intros Hcard Hactive Hnever.
  destruct (first_match_Some _ _ _ Hcard) as [Hown _].
  rewrite block_card_cases, Hcard. eexists. split; [reflexivity|].
  assert (first_match (owned_card card_id current_user)
            (update_first (owned_card card_id current_user)
               (set_card_block "blocked" (Some now)) (DB.virtual_cards d))
          = Some (set_card_block "blocked" (Some now) card)) as Hblocked
    by (by apply first_match_update_first).
  split; [exact Hblocked|].
  rewrite unblock_card_cases. simpl. rewrite Hblocked.
  rewrite (update_first_undo _ _ _ _ card); [by destruct d|done|done|].
  destruct card. simpl in *. by subst.
Qed.

Lemma block_then_unblock_restores_witness :
  exists blocked,
    block_card "card-1" bob 9500 with_card
      = (Ok "Card blocked successfully", blocked) /\
    unblock_card "card-1" bob blocked
      = (Ok "Card unblocked successfully", with_card).
Proof.
  destruct (block_then_unblock_restores "card-1" bob 9500 with_card bob_card
    eq_refl eq_refl eq_refl) as (blocked & Hb & _ & Hu).
  exists blocked. split; [exact Hb | exact Hu].
Defined.

(** Where [update_one] writes: the collection splits around the first
    match, and only that document is replaced. *)
Lemma update_first_split {A} (q : A -> bool) (f : A -> A) (c : list A) x :
  first_match q c = Some x ->
  exists earlier later,
    c = earlier ++ x :: later /\
    (forall y, y ∈ earlier -> q y = false) /\
    update_first q f c = earlier ++ f x :: later.
Proof.
  induction c as [|d c IH]; simpl; [done|].
  destruct (q d) eqn:Hd.
  - intros [= <-]. exists [], c. split; [done|]. split; [|done].
    intros y Hy. by apply elem_of_nil in Hy.
  - intros Hx. destruct (IH Hx) as (earlier & later & -> & Hno & ->).
    exists (d :: earlier), later. split; [done|]. split; [|done].
    intros y Hy. apply elem_of_cons in Hy as [-> | Hy]; auto.
Qed.

(** X17: new limits replace the old ones and nothing else.  For a card of
    the caller, PUT limits succeeds for every pair of floats (there is no
    check on their sign or order).  The database after the call is the
    database before it with that one card, the first that matches, carrying
    the new limits: its other fields, every other card in its place, and
    the five other collections are as before. *)
Theorem limits_are_overwritten card_id limits current_user d card :
  first_match (owned_card card_id current_user) (DB.virtual_cards d) = Some card ->
  exists earlier later updated,
    DB.virtual_cards d = earlier ++ card :: later /\
    (forall c, c ∈ earlier -> owned_card card_id current_user c = false) /\
    update_card_limits card_id limits current_user d
    = (Ok "Card limits updated successfully",
       DB.mk (DB.users d) (DB.kyc_documents d) (DB.pix_accounts d)
         (DB.pix_transactions d) (earlier ++ updated :: later)
         (DB.card_transactions d)) /\
    updated =
      VirtualCard.mk (VirtualCard.id card) (VirtualCard.user_id card)
        (VirtualCard.card_number card) (VirtualCard.card_holder_name card)
        (VirtualCard.cvv card) (VirtualCard.expiry_date card)
        (VirtualCard.status card)
        (CardLimits.daily_limit limits) (CardLimits.monthly_limit limits)
        (VirtualCard.daily_spent card) (VirtualCard.monthly_spent card)
        (VirtualCard.created_at card) (VirtualCard.blocked_at card) /\
    first_match (owned_card card_id current_user) (earlier ++ updated :: later)
    = Some updated.
Proof.
  intros Hcard. destruct (first_match_Some _ _ _ Hcard) as [Hown _].
  destruct (update_first_split _
    (set_card_limits (CardLimits.daily_limit limits)
                     (CardLimits.monthly_limit limits)) _ _ Hcard)
    as (earlier & later & Hsplit & Hearlier & Hupd).
  exists earlier, later, (set_card_limits (CardLimits.daily_limit limits)
                            (CardLimits.monthly_limit limits) card).
  split; [exact Hsplit|]. split; [exact Hearlier|].
  rewrite update_card_limits_cases, Hcard, Hupd. split; [done|]. split; [done|].
  rewrite <- Hupd. by apply first_match_update_first.
Qed.

(** Alice and Bob each hold a card; Bob sets a negative daily limit on
    his.  Alice's card, stored first, and everything else stay. *)
Lemma limits_are_overwritten_witness :
  let alice_card :=
    VirtualCard.mk "card-0" "user-alice" "4000111122223333" "ALICE SOUZA"
      "321" "10/31" "blocked" 0x1.f4p+9 0x1.388p+13 0 0 8000 (Some 8500) in
  let d :=
    DB.mk (DB.users (two_customers 0 0)) [alice_document]
      (DB.pix_accounts (two_customers 0 0)) [] [alice_card; bob_card] [] in
  update_card_limits "card-1" (CardLimits.mk (-0x1p+0) 0x1p+10) bob d
  = (Ok "Card limits updated successfully",
     DB.mk (DB.users (two_customers 0 0)) [alice_document]
       (DB.pix_accounts (two_customers 0 0)) []
       [alice_card;
        VirtualCard.mk "card-1" "user-bob" "4a1b2c3d4e5f6a7b" "BOB LIMA" "123"
          "11/31" "active" (-0x1p+0) 0x1p+10 0 0 9000 None] []).
Proof.
  intros alice_card d.
  destruct (limits_are_overwritten "card-1" (CardLimits.mk (-0x1p+0) 0x1p+10)
    bob d bob_card eq_refl)
    as (earlier & later & updated & Hsplit & _ & Hrun & -> & _).
  assert (earlier = [alice_card] /\ later = []) as [-> ->].
  { destruct earlier as [|c0 [|c1 earlier]]; simpl in Hsplit.
    - discriminate.
    - by injection Hsplit as <- <-.
    - injection Hsplit as _ _ Habs. by destruct earlier. }
  exact Hrun.
Defined.

Lemma create_card_cases card_data current_user card_id card_number cvv
    expiry_date now d :
  create_card card_data current_user card_id card_number cvv expiry_date now d =
  if negb (String.eqb (User.kyc_status current_user) "approved")
  then (Raise (mkHTTPException 400 "KYC approval required for card creation"), d)
  else
    match CardCreate.daily_limit card_data,
          CardCreate.monthly_limit card_data with
    | Some daily_limit, Some monthly_limit =>
      let card :=
        VirtualCard.mk card_id (User.id current_user) card_number
          (CardCreate.card_holder_name card_data) cvv expiry_date "active"
          daily_limit monthly_limit 0%float 0%float now None in
      (Ok card,
       DB.mk (DB.users d) (DB.kyc_documents d) (DB.pix_accounts d)
         (DB.pix_transactions d) (DB.virtual_cards d ++ [stored_card card])
         (DB.card_transactions d))
    | _, _ => (ValidationError, d)
    end.
Proof.
  unfold create_card. destruct (negb _); [done|].
  by destruct (CardCreate.daily_limit card_data),
              (CardCreate.monthly_limit card_data).
Qed.

(** X18: GET /cards shows the first ten cards of a user.  The card that
    [create_card] answers is stored with its [created_at] cut to
    milliseconds.  That stored card is listed, last, when the user held
    fewer than ten cards; from the eleventh card on it is stored but the
    list is the same as before the creation. *)
Theorem card_list_stops_at_ten
    card_data current_user card_id card_number cvv expiry_date now d card d' :
  let mine :=
    List.filter
      (fun c => String.eqb (VirtualCard.user_id c) (User.id current_user))
      (DB.virtual_cards d) in
  create_card card_data current_user card_id card_number cvv expiry_date now d
    = (Ok card, d') ->
  VirtualCard.created_at card = now /\
  VirtualCard.created_at (stored_card card) = 1000 * (now / 1000) /\
  DB.virtual_cards d' = DB.virtual_cards d ++ [stored_card card] /\
  ((length mine < 10)%nat ->
   get_cards current_user d' = (Ok (mine ++ [stored_card card]), d')) /\
  ((10 <= length mine)%nat ->
   get_cards current_user d' = (Ok (take 10 mine), d') /\
   get_cards current_user d = (Ok (take 10 mine), d)).
Proof.
  intros mine Hrun. rewrite create_card_cases in Hrun.
  destruct (negb _); [done|].
  destruct (CardCreate.daily_limit card_data),
           (CardCreate.monthly_limit card_data); try done.
  injection Hrun as <- <-. simpl.
  do 3 (split; [done|]).
  unfold get_cards. run_query. rewrite List.filter_app. simpl.
  rewrite String.eqb_refl. fold mine. split.
  - intros Hfew. rewrite take_ge; [done|]. rewrite length_app. simpl. lia.
  - intros Hfull. by rewrite take_app_le.
Qed.

(** Bob's second card, issued at 9900.750 ms and listed with 9900 ms. *)
Lemma card_list_stops_at_ten_witness :
  let request := CardCreate.parse (CardCreate.mk_body "BOB LIMA" Omitted Omitted) in
  let listed :=
    VirtualCard.mk "card-2" "user-bob" "4fedcba987654321" "BOB LIMA" "456"
      "11/31" "active" 5000 50000 0 0 9900000 None in
  get_cards bob
    (snd (create_card request bob "card-2" "4fedcba987654321" "456" "11/31"
            9900750 with_card))
  = (Ok [bob_card; listed],
     snd (create_card request bob "card-2" "4fedcba987654321" "456" "11/31"
            9900750 with_card)).
Proof.
  intros request listed.
  destruct (card_list_stops_at_ten request bob "card-2" "4fedcba987654321"
    "456" "11/31" 9900750 with_card
    (VirtualCard.mk "card-2" "user-bob" "4fedcba987654321" "BOB LIMA" "456"
       "11/31" "active" 5000 50000 0 0 9900750 None)
    (snd (create_card request bob "card-2" "4fedcba987654321" "456" "11/31"
            9900750 with_card)) eq_refl) as (_ & _ & _ & Hfew & _).
  apply Hfew. simpl. lia.
Defined.

(** X19: the transactions of a card.  For a card of the caller, GET
    /cards/{id}/transactions answers with transactions stored for that card
    only, newest first, at most 100 of them, and all of them when there are
    at most 100. *)
Theorem card_transactions_are_the_cards_own card_id current_user d card :
  first_match (owned_card card_id current_user) (DB.virtual_cards d) = Some card ->
  let of_card :=
    List.filter (fun t => String.eqb (CardTransaction.card_id t) card_id)
      (DB.card_transactions d) in
  exists txs,
    get_card_transactions card_id current_user d = (Ok txs, d) /\
    (forall t, t ∈ txs ->
       t ∈ DB.card_transactions d /\ CardTransaction.card_id t = card_id) /\
    StronglySorted
      (fun x y => CardTransaction.created_at y <= CardTransaction.created_at x)
      txs /\
    (length txs <= 100)%nat /\
    ((length of_card <= 100)%nat -> txs ≡ₚ of_card).
Proof.
  intros Hcard of_card. unfold get_card_transactions. run_query.
  rewrite Hcard. simpl. fold of_card.
  set (R := newer_first CardTransaction.created_at).
  eexists. split; [reflexivity|].
  assert (merge_sort R of_card ≡ₚ of_card) as Hperm
    by apply merge_sort_Permutation.
  assert (StronglySorted R (merge_sort R of_card)) as Hsorted
    by apply (StronglySorted_merge_sort R).
  rewrite <- (take_drop 100 (merge_sort R of_card)) in Hsorted.
  split; [|split; [|split]].
  - intros t Ht.
    assert (t ∈ of_card) as Hin.
    { rewrite <- Hperm. eapply elem_of_submseteq; [exact Ht | apply submseteq_take]. }
    apply list_elem_of_In, filter_In in Hin as [Hin Hid].
    split; [by apply list_elem_of_In | by apply String.eqb_eq].
  - by apply StronglySorted_app_1_l in Hsorted.
  - rewrite length_take. lia.
  - intros Hlen. rewrite take_ge; [done|]. by rewrite Hperm.
Qed.

(** On the statement of 132 charges, 120 of them on Bob's card: the answer
    holds 100 charges, all on that card, and starts with the three
    newest. *)
Lemma card_transactions_are_the_cards_own_witness :
  exists txs,
    get_card_transactions "card-1" bob with_charges = (Ok txs, with_charges) /\
    length (DB.card_transactions with_charges) = 132%nat /\
    length txs = 100%nat /\
    CardTransaction.id <$> take 3 txs = ["card-1-119"; "card-1-118"; "card-1-117"] /\
    (forall t, t ∈ txs -> CardTransaction.card_id t = "card-1") /\
    StronglySorted
      (fun x y => CardTransaction.created_at y <= CardTransaction.created_at x)
      txs.
Proof.
  destruct (card_transactions_are_the_cards_own "card-1" bob with_charges
    bob_card eq_refl) as (txs & Hrun & Hown & Hsorted & _ & _).
  exists txs. split; [exact Hrun|]. split; [reflexivity|].
  assert (fst (get_card_transactions "card-1" bob with_charges) = Ok txs) as Hc
    by (by rewrite Hrun).
  vm_compute in Hc. injection Hc as Hc.
  split; [by rewrite <- Hc|]. split; [by rewrite <- Hc|].
  split; [|exact Hsorted]. intros t Ht. by destruct (Hown t Ht).
Defined.

(** ** What holds after any sequence of requests *)

Lemma Forall_update_first {A} (P : A -> Prop) (q : A -> bool) (f : A -> A) c :
  (forall x, P x -> P (f x)) -> Forall P c -> Forall P (update_first q f c).
Proof.
  intros Hf. induction 1 as [|x c Hx Hc IH]; simpl; [done|].
  destruct (q x); constructor; auto.
Qed.

Lemma empty_consistent : consistent DB.empty.
Proof. split; try done; try apply Forall_nil_2. constructor. Qed.

Lemma register_consistent user_data user_id account_id now_user now_account
    hashed_password token d :
  consistent d ->
  consistent (snd (register user_data user_id account_id now_user now_account
                     hashed_password token d)).
Proof.
  intros [Ho He Hl Hc Hch Hd Hu]. rewrite register_cases.
  destruct (first_match _ (DB.users d)) eqn:Hnew; [done|]. simpl.
  split; simpl; try done.
  - unfold owners_match in *. simpl. by rewrite !fmap_app, Ho.
  - unfold emails_unique in *. simpl. rewrite fmap_app.
    apply NoDup_app. split; [done|]. split; [|apply NoDup_singleton].
    intros email Hin Hnew'. apply list_elem_of_singleton in Hnew'. simpl in Hnew'.
    subst email. apply list_elem_of_fmap in Hin as (u & Hu' & Hin).
    apply (first_match_None _ _ u Hnew) in Hin.
    apply String.eqb_neq in Hin. congruence.
  - apply Forall_app. split; [done|]. apply Forall_singleton. by left.
Qed.

Lemma submit_kyc_consistent kyc_data current_user doc_id now d :
  consistent d -> consistent (snd (submit_kyc kyc_data current_user doc_id now d)).
Proof.
  intros [Ho He Hl Hc Hch Hd Hu]. rewrite submit_kyc_cases.
  destruct (blocks_submission _); [done|]. split; simpl; try done.
  - unfold owners_match in *. simpl. by rewrite update_first_fmap.
  - unfold emails_unique in *. simpl. by rewrite update_first_fmap.
  - apply Forall_app. split; [done|]. apply Forall_singleton. by left.
  - apply Forall_update_first; [|done]. intros u _. right. by left.
Qed.

Lemma review_kyc_consistent kyc_id action current_user now d :
  consistent d -> consistent (snd (review_kyc kyc_id action current_user now d)).
Proof.
  intros [Ho He Hl Hc Hch Hd Hu]. rewrite review_kyc_cases.
  destruct (is_decision (action !! "status")) eqn:Hdec; [|done]. simpl.
  destruct (first_match _ _); [|done].
  assert (default "" (action !! "status") = "approved" \/
          default "" (action !! "status") = "rejected") as Hs.
  { apply is_decision_true in Hdec as [-> | ->]; auto. }
  split; simpl; try done.
  - unfold owners_match in *. simpl. by rewrite update_first_fmap.
  - unfold emails_unique in *. simpl. by rewrite update_first_fmap.
  - apply Forall_update_first; [|done]. intros k _.
    unfold document_status_in_range. simpl. tauto.
  - apply Forall_update_first; [|done]. intros u _.
    unfold user_status_in_range. simpl. tauto.
Qed.

Lemma pix_transfer_consistent transfer_data current_user tx_id completed
    created d :
  consistent d ->
  consistent (snd (pix_transfer transfer_data current_user tx_id completed
                     created d)).
Proof.
  intros [Ho He Hl Hc Hch Hd Hu]. rewrite pix_transfer_cases.
  destruct (first_match (by_user _) _); [|done].
  destruct (PrimFloat.ltb _ _); [done|].
  destruct (first_match (by_key _) _); [|done].
  split; simpl; try done.
  - unfold owners_match in *. simpl. unfold settled.
    by rewrite !update_first_fmap.
  - apply Forall_app. split; [done|]. apply Forall_singleton.
    unfold settled_entry. simpl. eauto 10.
Qed.

Lemma create_card_consistent card_data current_user card_id card_number cvv
    expiry_date now d :
  consistent d ->
  consistent (snd (create_card card_data current_user card_id card_number cvv
                     expiry_date now d)).
Proof.
  intros [Ho He Hl Hc Hch Hd Hu]. rewrite create_card_cases.
  destruct (negb _); [done|].
  destruct (CardCreate.daily_limit card_data),
           (CardCreate.monthly_limit card_data); try done.
  split; simpl; try done.
  apply Forall_app. split; [done|]. apply Forall_singleton.
  unfold uncharged_card. simpl. auto.
Qed.

Lemma card_update_consistent q f d :
  (forall c, uncharged_card c -> uncharged_card (f c)) ->
  consistent d ->
  consistent (DB.mk (DB.users d) (DB.kyc_documents d) (DB.pix_accounts d)
                (DB.pix_transactions d)
                (update_first q f (DB.virtual_cards d))
                (DB.card_transactions d)).
Proof.
  intros Hf [Ho He Hl Hc Hch Hd Hu]. split; simpl; try done.
  by apply Forall_update_first.
Qed.

Lemma serve_consistent r d : consistent d -> consistent (serve r d).
Proof.
  intros Hd. destruct r; simpl.
  - by apply register_consistent.
  - by apply submit_kyc_consistent.
  - by apply review_kyc_consistent.
  - by apply pix_transfer_consistent.
  - by apply create_card_consistent.
  - rewrite block_card_cases. destruct (first_match _ _); [|done].
    apply card_update_consistent; [|done].
    intros c (_ & ? & ?). unfold uncharged_card. simpl. auto.
  - rewrite unblock_card_cases. destruct (first_match _ _); [|done].
    apply card_update_consistent; [|done].
    intros c (_ & ? & ?). unfold uncharged_card. simpl. auto.
  - rewrite update_card_limits_cases. destruct (first_match _ _); [|done].
    apply card_update_consistent; [|done].
    intros c (? & ? & ?). unfold uncharged_card. simpl. auto.
Qed.

Lemma replay_consistent requests d :
  consistent d -> consistent (replay requests d).
Proof.
  revert d. induction requests as [|r requests IH]; intros d Hd; simpl; [done|].
  apply IH. by apply serve_consistent.
Qed.

(** X20: one account per user.  After any sequence of requests on an
    empty database there are as many accounts as users, and the n-th
    account belongs to the n-th user and carries that user's email as its
    PIX key: registration is the only route that adds either, and no route
    removes or re-keys one. *)
Theorem accounts_line_up_with_users (requests : list request) :
  let d := replay requests DB.empty in
  length (DB.pix_accounts d) = length (DB.users d) /\
  forall (i : nat) account,
    DB.pix_accounts d !! i = Some account ->
    exists user,
      DB.users d !! i = Some user /\
      PIXAccount.user_id account = User.id (User.user user) /\
      PIXAccount.pix_key account = User.email (User.user user).
Proof.
  intros d.
  pose proof (consistent_owners _ (replay_consistent requests _ empty_consistent))
    as Ho. fold d in Ho. unfold owners_match in Ho. split.
  - by rewrite <- (length_fmap (fun a => (PIXAccount.user_id a, PIXAccount.pix_key a))),
      Ho, length_fmap.
  - intros i account Hi.
    assert (((fun a => (PIXAccount.user_id a, PIXAccount.pix_key a))
               <$> DB.pix_accounts d) !! i
            = Some (PIXAccount.user_id account, PIXAccount.pix_key account)) as H
      by (by rewrite list_lookup_fmap, Hi).
    rewrite Ho, list_lookup_fmap in H.
    destruct (DB.users d !! i) as [user|]; [|done].
    injection H as Hid Hkey. by exists user.
Qed.

(** X21: PIX keys are unique.  After any sequence of requests on an empty
    database no two users share an email and no two accounts share a PIX
    key, so a key names at most one account. *)
Theorem pix_keys_are_unique (requests : list request) :
  let d := replay requests DB.empty in
  NoDup ((fun u => User.email (User.user u)) <$> DB.users d) /\
  NoDup (PIXAccount.pix_key <$> DB.pix_accounts d) /\
  forall a b, a ∈ DB.pix_accounts d -> b ∈ DB.pix_accounts d ->
              PIXAccount.pix_key a = PIXAccount.pix_key b -> a = b.
Proof.
  intros d.
  pose proof (replay_consistent requests _ empty_consistent) as [Ho He _ _ _ _ _].
  fold d in Ho, He. unfold owners_match in Ho. unfold emails_unique in He.
  assert (NoDup (PIXAccount.pix_key <$> DB.pix_accounts d)) as Hkeys.
  { replace (PIXAccount.pix_key <$> DB.pix_accounts d)
      with (snd <$> ((fun a => (PIXAccount.user_id a, PIXAccount.pix_key a))
                       <$> DB.pix_accounts d))
      by (by rewrite <- list_fmap_compose).
    rewrite Ho, <- list_fmap_compose. exact He. }
  split; [exact He|]. split; [exact Hkeys|].
  intros a b Ha Hb.
  by apply (unique_key_inj PIXAccount.pix_key (DB.pix_accounts d)).
Qed.

(** X22: the ledger holds completed transfers only.  After any sequence of
    requests on an empty database every entry of [pix_transactions] is a
    "send" with status "completed", names a sender and a recipient, and
    carries no QR code: no route writes a pending, failed, cancelled,
    "receive" or "qr_payment" entry. *)
Theorem ledger_holds_completed_sends (requests : list request) tx :
  tx ∈ DB.pix_transactions (replay requests DB.empty) ->
  PIXTransaction.status tx = "completed" /\
  PIXTransaction.transaction_type tx = "send" /\
  is_Some (PIXTransaction.from_user_id tx) /\
  is_Some (PIXTransaction.to_user_id tx) /\
  PIXTransaction.qr_code tx = None.
Proof.
  intros Htx.
  pose proof (consistent_ledger _ (replay_consistent requests _ empty_consistent))
    as Hl.
  rewrite Forall_forall in Hl. by apply Hl.
Qed.

Lemma ledger_holds_completed_sends_witness :
  PIXTransaction.status
    (transfer_record (PIXTransfer.mk "bob@example.com" 0 None) alice
       (alice_account 0) (bob_account 0) "tx-1" 5000 5001)
  = "completed".
Proof.
  apply (ledger_holds_completed_sends
    [Register alice_signup "user-alice" "acct-alice" 1000 1000 "$2b$12$alice"
       "jwt-alice";
     Register bob_signup "user-bob" "acct-bob" 2000 2000 "$2b$12$bob" "jwt-bob";
     Transfer (PIXTransfer.mk "bob@example.com" 0 None) alice "tx-1" 5000 5001]).
  vm_compute. left.
Defined.

(** X23: no route charges a card.  After any sequence of requests on an
    empty database every card is "active" or "blocked" with both spent
    counters at 0.0, [card_transactions] is empty, and GET
    /cards/{id}/transactions answers either 404 or the empty list. *)
Theorem cards_are_never_charged (requests : list request) :
  let d := replay requests DB.empty in
  (forall c, c ∈ DB.virtual_cards d ->
     (VirtualCard.status c = "active" \/ VirtualCard.status c = "blocked") /\
     VirtualCard.daily_spent c = 0%float /\
     VirtualCard.monthly_spent c = 0%float) /\
  DB.card_transactions d = [] /\
  (forall card_id current_user,
     get_card_transactions card_id current_user d
       = (Raise (mkHTTPException 404 "Card not found"), d) \/
     get_card_transactions card_id current_user d = (Ok [], d)).
Proof.
  intros d.
  pose proof (replay_consistent requests _ empty_consistent) as [_ _ _ Hc Hch _ _].
  fold d in Hc, Hch. split; [|split; [exact Hch|]].
  - rewrite Forall_forall in Hc. exact Hc.
  - intros card_id current_user. unfold get_card_transactions. run_query.
    destruct (first_match _ _); [right | by left]. simpl. by rewrite Hch.
Qed.

(** X24: statuses stay in range.  After any sequence of requests on an
    empty database every KYC document is "analyzing", "approved" or
    "rejected" (never "pending" or "in_review"), and every user's
    [kyc_status] is "pending", "in_review", "approved" or "rejected". *)
Theorem statuses_stay_in_range (requests : list request) :
  let d := replay requests DB.empty in
  (forall k, k ∈ DB.kyc_documents d ->
     KYCDocument.status k = "analyzing" \/ KYCDocument.status k = "approved" \/
     KYCDocument.status k = "rejected") /\
  (forall u, u ∈ DB.users d ->
     User.kyc_status (User.user u) = "pending" \/
     User.kyc_status (User.user u) = "in_review" \/
     User.kyc_status (User.user u) = "approved" \/
     User.kyc_status (User.user u) = "rejected").
Proof.
  intros d.
  pose proof (replay_consistent requests _ empty_consistent) as [_ _ _ _ _ Hd Hu].
  fold d in Hd, Hu.
  split; [exact (proj1 (Forall_forall _ _) Hd) | exact (proj1 (Forall_forall _ _) Hu)].
Qed.

Lemma serve_extends_ledger r d :
  DB.pix_transactions d `prefix_of` DB.pix_transactions (serve r d).
Proof.
  destruct r; simpl.
  - rewrite register_cases. by destruct (first_match _ _).
  - rewrite submit_kyc_cases. by destruct (blocks_submission _).
  - rewrite review_kyc_cases. destruct (negb _); [done|]. simpl.
    by destruct (first_match _ _).
  - rewrite pix_transfer_cases.
    destruct (first_match (by_user _) _); [|done].
    destruct (PrimFloat.ltb _ _); [done|].
    destruct (first_match (by_key _) _); [|done]. simpl. by apply prefix_app_r.
  - rewrite create_card_cases. destruct (negb _); [done|].
    by destruct (CardCreate.daily_limit card_data),
                (CardCreate.monthly_limit card_data).
  - rewrite block_card_cases. by destruct (first_match _ _).
  - rewrite unblock_card_cases. by destruct (first_match _ _).
  - rewrite update_card_limits_cases. by destruct (first_match _ _).
Qed.

(** X25: the ledger is append-only.  Whatever the database and whatever
    the requests, the ledger before them is a prefix of the ledger after
    them: no route rewrites or removes an entry. *)
Theorem ledger_is_append_only (requests : list request) (d : DB.t) :
  DB.pix_transactions d `prefix_of` DB.pix_transactions (replay requests d).
Proof.
  revert d. induction requests as [|r requests IH]; intros d; simpl; [done|].
  etrans; [apply (serve_extends_ledger r) | apply IH].
Qed.

(** ** From a payment request to the payment *)

(** X26: a generated payment request leads to the requester's account.
    When PIX keys are unique, the key answered by POST /pix/generate-qr for
    a user is one under which a successful transfer by anybody else credits
    that user's own account: after the transfer the account GET /pix/account
    shows for the requester is the one it showed before, with the amount
    added to the balance in binary64. *)
Theorem payment_request_leads_to_the_requester
    (json_dumps : QRPayload.t -> string) (generate_qr_code : string -> string)
    (str : float -> string)
    qr_data payee d qr payer amount description tx_id completed created
    reply d' :
  NoDup (PIXAccount.pix_key <$> DB.pix_accounts d) ->
  fst (generate_pix_qr json_dumps generate_qr_code str qr_data payee d) = Ok qr ->
  User.id payer <> User.id payee ->
  pix_transfer (PIXTransfer.mk (QRReply.pix_key qr) amount description) payer
    tx_id completed created d = (Ok reply, d') ->
  exists account,
    get_pix_account payee d = (Ok account, d) /\
    PIXAccount.pix_key account = QRReply.pix_key qr /\
    get_pix_account payee d'
    = (Ok (PIXAccount.set_balance
             (PrimFloat.add (PIXAccount.balance account) amount) account), d').
Proof.
  intros Hkeys Hqr Hother Hrun.
  unfold generate_pix_qr in Hqr. revert Hqr. run_route.
  fold (by_user (User.id payee)).
  destruct (first_match (by_user (User.id payee)) (DB.pix_accounts d))
    as [account|] eqn:Hacc; [|done].
  simpl. intros [= <-]. simpl in Hrun.
  destruct (first_match_Some _ _ _ Hacc) as [Hmine Hin].
  apply by_user_true in Hmine.
  assert (first_match (by_key (PIXAccount.pix_key account)) (DB.pix_accounts d)
          = Some account) as Hkey
    by (by apply (first_match_unique PIXAccount.pix_key)).
  rewrite pix_transfer_cases in Hrun. simpl in Hrun. rewrite Hkey in Hrun.
  destruct (first_match (by_user (User.id payer)) _) as [sender|]; [|done].
  destruct (PrimFloat.ltb _ _); [done|]. injection Hrun as _ <-.
  exists account. unfold get_pix_account. run_route.
  fold (by_user (User.id payee)). rewrite Hacc. split; [done|]. split; [done|].
  unfold settled. simpl. rewrite Hmine.
  rewrite (first_match_update_first _
             (PIXAccount.inc_balance amount) _ account); [done| |].
  - rewrite first_match_update_first_other; [done|done|].
    intros r Hr. rewrite Hacc in Hr. injection Hr as <-.
    apply by_user_false. congruence.
  - by apply by_user_true.
Qed.

Lemma payment_request_leads_to_the_requester_witness :
  exists d',
    pix_transfer (PIXTransfer.mk "bob@example.com" 0x1.ep+4 None) alice
      "tx-1" 5000 5001 (two_customers 0x1.9p+6 0)
    = (Ok (TransferReply.mk "Transfer completed successfully" "tx-1"), d') /\
    get_pix_account bob d' = (Ok (bob_account 0x1.ep+4), d').
Proof.
  exists (snd (pix_transfer (PIXTransfer.mk "bob@example.com" 0x1.ep+4 None)
                 alice "tx-1" 5000 5001 (two_customers 0x1.9p+6 0))).
  split; [reflexivity|].
  destruct (payment_request_leads_to_the_requester
    (fun _ => "{}") (fun _ => "iVBORw0KGgo=") (fun _ => "30.0")
    (PIXQRCode.mk 0x1.ep+4 None) bob (two_customers 0x1.9p+6 0)
    (QRReply.mk "iVBORw0KGgo=" "bob@example.com" "30.0")
    alice 0x1.ep+4 None "tx-1" 5000 5001
    (TransferReply.mk "Transfer completed successfully" "tx-1")
    (snd (pix_transfer (PIXTransfer.mk "bob@example.com" 0x1.ep+4 None) alice
            "tx-1" 5000 5001 (two_customers 0x1.9p+6 0))))
    as (account & Hbefore & _ & Hafter).
  - compute_done.
  - reflexivity.
  - discriminate.
  - reflexivity.
  - injection Hbefore as <-. exact Hafter.
Defined.
